(** * Account store of the flask backend (account_sql.py)

    A shallow embedding of [flask_backend/account_sql.py] and of
    [flask_backend/utils/exceptions.py], followed by the properties of the
    account store that were checked against it.

    Conventions of the embedding.
    - For the password pattern a Python [str] is a [text]: the list of its
      code points, any of them.  The class [\d] of a [str] pattern is the
      decimal digits of Unicode; below 256 these are [0-9], above they are
      read from the interpreter's character database ([UnicodeData]).
    - The texts the store handles (usernames, secrets to hash, roles,
      timestamps) are [string]s, sequences of characters whose code points
      are below 256; a [string] is read as a [text] where one is expected.
    - The [account] table is the list of its rows in rowid order, together
      with the AUTOINCREMENT counter.  [fetchone] on a [SELECT] without
      [ORDER BY] yields the first row of the scan, i.e. the first matching
      row of the list.
    - A method of [AccountSQL] is a function from the table to an outcome
      (a value or a raised exception) and the table afterwards.
    - What the code takes from its libraries (hashlib, datetime, the SQLite
      expression evaluator, the system clock) is gathered in the class
      [Runtime]; the operations are defined over any runtime, and a reference
      runtime is given to run them on concrete inputs.
    - The text sent to [logging] is not part of the table and is left out. *)

From Stdlib Require Import List String Ascii ZArith NArith Bool Arith Lia Permutation.
Import ListNotations.
Local Open Scope string_scope.
Local Open Scope list_scope.

(* ================================================================= *)
(** ** Characters and strings *)

Definition chars (s : string) : list ascii := list_ascii_of_string s.

Definition code (c : ascii) : N := N_of_ascii c.

Definition in_range (lo hi c : ascii) : bool :=
  ((code lo <=? code c) && (code c <=? code hi))%N.

Definition newline : ascii := ascii_of_N 10.

(** A [str] as the regular-expression engine sees it: its code points. *)
Definition text : Type := list N.

Definition codepoints (s : string) : text := map code (chars s).
Coercion codepoints : string >-> text.

(** What the regular-expression engine takes from the interpreter's Unicode
    character database: which code points from 256 up are decimal digits
    ([Py_UNICODE_ISDECIMAL]).  Below 256 the decimal digits are [0-9] in
    every version of the database. *)
Class UnicodeData := {
  decimal_above_latin1 : N -> bool
}.

(* ================================================================= *)
(** ** Regular expressions, as far as [verify_password] uses them *)

Module Re.

(** One item of a bracketed class. *)
Inductive item :=
| Range (lo hi : ascii)     (* lo-hi *)
| Digit                     (* \d *)
| Lits (s : string).        (* literal characters *)

(** What matches one character. *)
Inductive atom :=
| Dot                       (* .  : anything but a newline *)
| Esc_d                     (* \d *)
| Class (items : list item).  (* [...] *)

Inductive regex :=
| Bol                       (* ^ *)
| Eol                       (* $ *)
| One (a : atom)
| AtLeast (n : nat) (a : atom)   (* a{n,} ; a* is AtLeast 0 a *)
| Ahead (r : regex)         (* (?=r) *)
| Cat (r1 r2 : regex).

(** The digits [0-9] among one-byte characters. *)
Definition is_digit : ascii -> bool := in_range "0" "9".

Section Matcher.
Context {u : UnicodeData}.

(** [\d] on a [str]: a decimal digit of any script. *)
Definition is_decimal (c : N) : bool :=
  (if c <? 256 then (code "0" <=? c) && (c <=? code "9")
   else decimal_above_latin1 c)%N.

Definition item_ok (i : item) (c : N) : bool :=
  match i with
  | Range lo hi => ((code lo <=? c) && (c <=? code hi))%N
  | Digit => is_decimal c
  | Lits s => existsb (N.eqb c) (codepoints s)
  end.

Definition atom_ok (a : atom) (c : N) : bool :=
  match a with
  | Dot => negb (N.eqb c (code newline))
  | Esc_d => is_decimal c
  | Class items => existsb (fun i => item_ok i c) items
  end.

(** [many p k n s]: having taken [n] characters already, take any further
    number of leading characters of [s] that satisfy [p], the longest run
    first, and hand the count and the rest to [k]. *)
Fixpoint many (p : N -> bool) (k : nat -> text -> bool)
              (n : nat) (s : text) : bool :=
  match s with
  | c :: s' => if p c then many p k (S n) s' || k n s else k n s
  | [] => k n s
  end.

(** Backtracking matcher: [pos] is the offset reached in the subject, [s]
    what is left of it, [k] what must still match. *)
Fixpoint run (r : regex) (pos : nat) (s : text)
             (k : nat -> text -> bool) : bool :=
  match r with
  | Bol => Nat.eqb pos 0 && k pos s
  | Eol =>
      match s with
      | [] => k pos s
      | [c] => N.eqb c (code newline) && k pos s
      | _ => false
      end
  | One a =>
      match s with
      | c :: s' => atom_ok a c && k (S pos) s'
      | [] => false
      end
  | AtLeast lo a =>
      many (atom_ok a) (fun n rest => Nat.leb lo n && k (pos + n) rest) 0 s
  | Ahead r' => run r' pos s (fun _ _ => true) && k pos s
  | Cat r1 r2 => run r1 pos s (fun pos' s' => run r2 pos' s' k)
  end.

(** [re.match(pattern, subject)] is not [None]. *)
Definition matches (r : regex) (subject : text) : bool :=
  run r 0 subject (fun _ _ => true).

End Matcher.

End Re.

Declare Scope re_scope.
Delimit Scope re_scope with re.
Infix ";;" := Re.Cat (at level 61, right associativity) : re_scope.

(* ================================================================= *)
(** ** Module-level functions of account_sql.py *)

Definition symbols : string := "!@#$%^&*()_+".

(** "^(?=.*\\d)(?=.*[a-z])(?=.*[A-Z])(?=.*[!@#$%^&*()_+])[a-zA-Z\\d!@#$%^&*()_+]{8,}$" *)
Definition pattern : Re.regex :=
  (Re.Bol ;;
   Re.Ahead (Re.AtLeast 0 Re.Dot ;; Re.One Re.Esc_d) ;;
   Re.Ahead (Re.AtLeast 0 Re.Dot ;; Re.One (Re.Class [Re.Range "a" "z"])) ;;
   Re.Ahead (Re.AtLeast 0 Re.Dot ;; Re.One (Re.Class [Re.Range "A" "Z"])) ;;
   Re.Ahead (Re.AtLeast 0 Re.Dot ;; Re.One (Re.Class [Re.Lits symbols])) ;;
   Re.AtLeast 8
     (Re.Class [Re.Range "a" "z"; Re.Range "A" "Z"; Re.Digit; Re.Lits symbols]) ;;
   Re.Eol)%re.

Definition verify_password {u : UnicodeData} (password : text) : bool :=
  if Re.matches pattern password then true else false.

(** *** Random keys *)

(** A random number generator, as the numbers it yields call after call.
    [randbelow(n)], for [n > 0], is the next number reduced modulo [n]: it is
    below [n], and every value below [n] is the residue of some number. *)
Definition generator : Type := nat -> nat.

Definition randbelow (g : generator) (call n : nat) : nat := g call mod n.

(** [seq[i]] and [seq[i] = y] on a list, for an index within it. *)
Definition item_at (i : nat) (l : list ascii) : ascii := nth i l "000"%char.

Fixpoint set_item (i : nat) (y : ascii) (l : list ascii) : list ascii :=
  match l, i with
  | [], _ => []
  | _ :: l', O => y :: l'
  | x :: l', S i' => x :: set_item i' y l'
  end.

(** [choice(seq)] of a non-empty sequence: [seq[randbelow(len(seq))]]. *)
Definition choice (g : generator) (call : nat) (seq : string) : ascii :=
  item_at (randbelow g call (String.length seq)) (chars seq).

(** The loop of [random.sample(population, k)] over its pool, the branch
    taken whenever [k = len(population)]:
    [j = randbelow(n - i); result[i] = pool[j]; pool[j] = pool[n - i - 1]]. *)
Fixpoint sample_loop (g : generator) (n i steps : nat) (pool : list ascii)
  : list ascii :=
  match steps with
  | O => []
  | S steps' =>
      let j := randbelow g i (n - i) in
      item_at j pool
      :: sample_loop g n (S i) steps' (set_item j (item_at (n - i - 1) pool) pool)
  end.

Definition sample (g : generator) (population : list ascii) (k : nat) : list ascii :=
  sample_loop g (List.length population) 0 k population.

(** [string.ascii_lowercase], [string.ascii_uppercase], [string.ascii_letters],
    [string.digits]. *)
Definition ascii_lowercase : string := "abcdefghijklmnopqrstuvwxyz".
Definition ascii_uppercase : string := "ABCDEFGHIJKLMNOPQRSTUVWXYZ".
Definition ascii_letters : string := ascii_lowercase ++ ascii_uppercase.
Definition digits : string := "0123456789".

(** The characters of [mix] before the shuffle: a lowercase letter, an
    uppercase letter, a digit, a symbol, then [rest].  [rest] is built first
    and takes the first [length - 4] numbers of [sr]; [range] of a negative
    number is empty. *)
Definition generate_mix (sr : generator) (length : Z) : list ascii :=
  let count := Z.to_nat (length - 4) in
  let rest :=
    map (fun call => choice sr call (ascii_letters ++ digits ++ symbols))
        (List.seq 0 count) in
  [choice sr count ascii_lowercase; choice sr (count + 1) ascii_uppercase;
   choice sr (count + 2) digits; choice sr (count + 3) symbols] ++ rest.

(** [generate_key(length)]; [sr] is [random.SystemRandom()], [shuffler] the
    generator of the [random] module that [random.sample] draws from. *)
Definition generate_key (sr shuffler : generator) (length : Z) : string :=
  let mix := generate_mix sr length in
  string_of_list_ascii (sample shuffler mix (List.length mix)).

(* ================================================================= *)
(** ** Exceptions (utils/exceptions.py and the built-in ones met here) *)

Inductive exn_class :=
| DuplicateValueError | PasswordError | AccountError | TimeSetError
| ValueError | TypeError | IndexError.

(** A raised exception: its class and, when the source builds it, its text
    ([None] for the exceptions raised by the interpreter or a library). *)
Record exn := Exn { exn_type : exn_class; exn_text : option string }.

Definition exn_class_eqb (a b : exn_class) : bool :=
  match a, b with
  | DuplicateValueError, DuplicateValueError | PasswordError, PasswordError
  | AccountError, AccountError | TimeSetError, TimeSetError
  | ValueError, ValueError | TypeError, TypeError | IndexError, IndexError => true
  | _, _ => false
  end.

(** [isinstance(e, c)]: the classes above all derive from [Exception]
    directly, none from another. *)
Definition isinstance (e : exn) (c : exn_class) : bool :=
  exn_class_eqb (exn_type e) c.

(** The expression [a or b] on two class objects.  [or] yields its first
    operand when that operand is truthy, and a class object is truthy. *)
Definition class_or (a b : exn_class) : exn_class := a.

Inductive outcome (A : Type) :=
| Return (a : A)
| Raise (e : exn).
Arguments Return {A} a.
Arguments Raise {A} e.

(* ================================================================= *)
(** ** The account table *)

Module account.

(** One row, with the columns of CREATE TABLE in their order. *)
Record row := Row {
  user_id : Z;
  username : string;
  password : string;
  role : string;
  start_time : string;
  end_time : string }.

End account.
Abbreviation row := account.row.

(** [seq] is the AUTOINCREMENT counter (sqlite_sequence): the largest
    user_id handed out so far. *)
Record table := Table { rows : list row; seq : Z }.

(** A database file: [None] while it holds no [account] table. *)
Definition database := option table.

(** Values of a fetched row seen as a Python tuple. *)
Inductive value :=
| VInt (z : Z)
| VText (s : string).

Definition as_tuple (r : row) : list value :=
  [VInt (account.user_id r); VText (account.username r);
   VText (account.password r); VText (account.role r);
   VText (account.start_time r); VText (account.end_time r)].

(** [item[i]] where [item] is what [fetchone()] gave. *)
Definition subscript (item : option row) (i : nat) : outcome value :=
  match item with
  | None => Raise (Exn TypeError None)
  | Some r =>
      match nth_error (as_tuple r) i with
      | Some v => Return v
      | None => Raise (Exn IndexError None)
      end
  end.

(* ================================================================= *)
(** ** Computations on the connection *)

Definition M (A : Type) : Type := table -> outcome A * table.

Definition ret {A} (a : A) : M A := fun t => (Return a, t).

Definition raise {A} (e : exn) : M A := fun t => (Raise e, t).

Definition bind {A B} (m : M A) (k : A -> M B) : M B :=
  fun t =>
    match m t with
    | (Return a, t') => k a t'
    | (Raise e, t') => (Raise e, t')
    end.

Definition lift {A} (o : outcome A) : M A := fun t => (o, t).

Notation "'let*' x ':=' m 'in' k" := (bind m (fun x => k))
  (at level 10, x name, m at level 100, k at level 200).
Notation "m '>>' k" := (bind m (fun _ => k))
  (at level 62, right associativity).

(** [for x in xs: body]. *)
Fixpoint for_each {A} (xs : list A) (body : A -> M unit) : M unit :=
  match xs with
  | [] => ret tt
  | x :: xs' => body x >> for_each xs' body
  end.

(** [try: body / except c: handler], followed by [k] when [body] raised
    nothing; the handler ends the call. *)
Definition try_except {A B} (body : M A) (c : exn_class) (handler : M B)
                      (k : A -> M B) : M B :=
  fun t =>
    match body t with
    | (Return a, t') => k a t'
    | (Raise e, t') => if isinstance e c then handler t' else (Raise e, t')
    end.

(** *** The statements the code sends to SQLite *)

(** [SELECT * FROM account WHERE p], [fetchone()]. *)
Definition select_first (p : row -> bool) : M (option row) :=
  fun t => (Return (find p (rows t)), t).

(** [SELECT COUNT(col) FROM account WHERE p], [fetchone()[0]]; the counted
    columns are NOT NULL. *)
Definition select_count (p : row -> bool) : M Z :=
  fun t => (Return (Z.of_nat (List.length (filter p (rows t)))), t).

(** [INSERT INTO account (username, password, role, start_time, end_time)
    VALUES (?, ?, ?, ?, ?)]. *)
Definition insert (username password role start_time end_time : string) : M unit :=
  fun t =>
    let id := (seq t + 1)%Z in
    (Return tt,
     Table (rows t ++ [account.Row id username password role start_time end_time])
           id).

(** [UPDATE account SET ... WHERE p], the assignment given as a function of
    the row. *)
Definition update (set : row -> row) (p : row -> bool) : M unit :=
  fun t =>
    (Return tt, Table (map (fun r => if p r then set r else r) (rows t)) (seq t)).

(** An integer stored in a column of TEXT affinity is stored as its text. *)
Definition text_of_bool (b : bool) : string := if b then "1" else "0".

(* ================================================================= *)
(** ** What the code takes from its libraries *)

Class Runtime := {
  (** [hashlib.sha256(s.encode("utf-8")).hexdigest()] *)
  sha256_hexdigest : string -> string;
  (** [datetime.strptime(s, "%Y-%m-%d %H:%M:%S")]: [None] when it raises
      ValueError, else the instant, as a number that orders instants the way
      naive datetimes compare. *)
  strptime : string -> option Z;
  (** [datetime.now()], one reading of the clock.  Only the second boolean
      of [verify_time] depends on it, and no method looks at that one. *)
  datetime_now : Z;
  (** the truth value SQLite gives a TEXT operand of [AND] (it casts the text
      to NUMERIC and tests it against zero) *)
  sql_truth : string -> bool
}.

Section Program.
Context {rt : Runtime}.

(** [verify_time]: end_time > start_time, end_time > now_time > start_time. *)
Definition verify_time (start_time end_time : string) : outcome (bool * bool) :=
  match strptime start_time with
  | None => Raise (Exn ValueError None)
  | Some start_time =>
      match strptime end_time with
      | None => Raise (Exn ValueError None)
      | Some end_time =>
          Return ((start_time <? end_time)%Z,
                  (datetime_now <? end_time)%Z && (start_time <? datetime_now)%Z)
      end
  end.

Definition get_hex_sha (a_string : string) : string := sha256_hexdigest a_string.

(** *** class AccountSQL *)

Definition _create_table_if_not_exits (db : database) : table :=
  match db with
  | Some t => t
  | None => Table [] 0
  end.

(** [admin_pwd] is the key [generate_key(15)] yields if it is called. *)
Definition _init_admin_if_not_exits (admin_pwd : string) : M unit :=
  let* n := select_count (fun r => account.role r =? "admin") in
  if (n =? 0)%Z then
    insert "admin" (get_hex_sha admin_pwd) "admin"
           "2023-01-01 00:00:00" "2030-01-01 00:00:00"
  else ret tt.

(** [AccountSQL(sql_name)]: [db] is what the file [sql_name] holds. *)
Definition __init__ (db : database) (admin_pwd : string) : table :=
  snd (_init_admin_if_not_exits admin_pwd (_create_table_if_not_exits db)).

Definition check_username_exits (username : string) : M bool :=
  let* n := select_count (fun r => account.username r =? username) in
  if negb (n =? 0)%Z then ret true else ret false.

(** An element of [account_list]: (username, password, role, start, end). *)
Definition account_tuple : Type := string * string * string * string * string.
Definition acc0 (a : account_tuple) : string := let '(x, _, _, _, _) := a in x.
Definition acc1 (a : account_tuple) : string := let '(_, x, _, _, _) := a in x.
Definition acc2 (a : account_tuple) : string := let '(_, _, x, _, _) := a in x.
Definition acc3 (a : account_tuple) : string := let '(_, _, _, x, _) := a in x.
Definition acc4 (a : account_tuple) : string := let '(_, _, _, _, x) := a in x.

Definition create_accounts (account_list : list account_tuple) : M unit :=
  for_each account_list (fun account =>
    let* used := check_username_exits (acc0 account) in
    if used then
      raise (Exn DuplicateValueError (Some (acc0 account ++ " already in used.")%string))
    else
      let* ok := lift (verify_time (acc3 account) (acc4 account)) in
      if negb (fst ok) then
        raise (Exn TimeSetError
                 (Some (acc0 account ++ " time set error, " ++ acc4 account
                        ++ " early than " ++ acc3 account)%string))
      else ret tt) >>
  for_each account_list (fun account =>
    insert (acc0 account) (get_hex_sha (acc1 account)) (acc2 account)
           (acc3 account) (acc4 account)).

(** The bodies of the two loops of [create_accounts], by name. *)
Definition check_one (account : account_tuple) : M unit :=
  let* used := check_username_exits (acc0 account) in
  if used then
    raise (Exn DuplicateValueError (Some (acc0 account ++ " already in used.")%string))
  else
    let* ok := lift (verify_time (acc3 account) (acc4 account)) in
    if negb (fst ok) then
      raise (Exn TimeSetError
               (Some (acc0 account ++ " time set error, " ++ acc4 account
                      ++ " early than " ++ acc3 account)%string))
    else ret tt.

Definition insert_one (account : account_tuple) : M unit :=
  insert (acc0 account) (get_hex_sha (acc1 account)) (acc2 account)
         (acc3 account) (acc4 account).

Definition username_get_base_info (username : string)
  : M (value * value * value * value) :=
  let* item := select_first (fun r => account.username r =? username) in
  let* i0 := lift (subscript item 0) in
  let* i1 := lift (subscript item 1) in
  let* i3 := lift (subscript item 3) in
  let* i4 := lift (subscript item 4) in
  ret (i0, i1, i3, i4).

Definition verify_account (username password : string) : M row :=
  let password := get_hex_sha password in
  let* full_export :=
    select_first (fun r => (account.username r =? username)
                           && (account.password r =? password)) in
  match full_export with
  | Some r => ret r
  | None =>
      let* username_export :=
        select_first (fun r => account.username r =? username) in
      match username_export with
      | Some _ => raise (Exn PasswordError (Some (username ++ "'s password wrong")%string))
      | None => raise (Exn AccountError (Some (username ++ " not found")%string))
      end
  end.

Definition change_password (username old_pwd new_pwd : string) : M bool :=
  try_except (verify_account username old_pwd)
    (class_or AccountError PasswordError) (ret false)
    (fun _ =>
       update (fun r => account.Row (account.user_id r) (account.username r)
                          (get_hex_sha new_pwd) (account.role r)
                          (account.start_time r) (account.end_time r))
              (fun r => account.username r =? username) >>
       ret true).

(** The statement is
    [UPDATE account SET start_time = ? and end_time = ? WHERE username = ?]:
    one assignment, of the value of [? AND (end_time = ?)], to start_time. *)
Definition update_allow_time (username start_time end_time : string) : M unit :=
  let* known := check_username_exits username in
  if known then
    let* ok := lift (verify_time start_time end_time) in
    if fst ok then
      update (fun r => account.Row (account.user_id r) (account.username r)
                         (account.password r) (account.role r)
                         (text_of_bool (sql_truth start_time
                                        && (account.end_time r =? end_time)))
                         (account.end_time r))
             (fun r => account.username r =? username)
    else
      raise (Exn TimeSetError
               (Some ("Error, " ++ end_time ++ " early than " ++ start_time)%string))
  else raise (Exn AccountError (Some (username ++ " does not exits")%string)).

End Program.

(* ================================================================= *)
(** ** A reference runtime *)

(** SHA-256 (FIPS 180-4) on 32-bit words held in [Z]. *)
Module Sha256.
Local Open Scope Z_scope.

Definition wrap (x : Z) : Z := x mod 2 ^ 32.
Definition add (x y : Z) : Z := wrap (x + y).
Definition rotr (n x : Z) : Z :=
  Z.lor (Z.shiftr x n) (wrap (Z.shiftl x (32 - n))).
Definition xor3 (x y z : Z) : Z := Z.lxor x (Z.lxor y z).
Definition not32 (x : Z) : Z := Z.lxor x (2 ^ 32 - 1).

Definition ch (x y z : Z) : Z := Z.lxor (Z.land x y) (Z.land (not32 x) z).
Definition maj (x y z : Z) : Z :=
  xor3 (Z.land x y) (Z.land x z) (Z.land y z).
Definition big_sigma0 (x : Z) : Z := xor3 (rotr 2 x) (rotr 13 x) (rotr 22 x).
Definition big_sigma1 (x : Z) : Z := xor3 (rotr 6 x) (rotr 11 x) (rotr 25 x).
Definition small_sigma0 (x : Z) : Z := xor3 (rotr 7 x) (rotr 18 x) (Z.shiftr x 3).
Definition small_sigma1 (x : Z) : Z := xor3 (rotr 17 x) (rotr 19 x) (Z.shiftr x 10).

(** The largest [r] in [lo, hi) with [r ^ e <= n], by bisection. *)
Fixpoint root_between (fuel : nat) (e n lo hi : Z) : Z :=
  match fuel with
  | O => lo
  | S fuel' =>
      if hi - lo <=? 1 then lo
      else let mid := (lo + hi) / 2 in
           if mid ^ e <=? n then root_between fuel' e n mid hi
           else root_between fuel' e n lo mid
  end.

Definition first_primes : list Z :=
  [2; 3; 5; 7; 11; 13; 17; 19; 23; 29; 31; 37; 41; 43; 47; 53; 59; 61; 67; 71;
   73; 79; 83; 89; 97; 101; 103; 107; 109; 113; 127; 131; 137; 139; 149; 151;
   157; 163; 167; 173; 179; 181; 191; 193; 197; 199; 211; 223; 227; 229; 233;
   239; 241; 251; 257; 263; 269; 271; 277; 281; 283; 293; 307; 311].

(** First 32 bits of the fractional part of the [e]-th root of [p]. *)
Definition frac_root (e p : Z) : Z :=
  wrap (root_between 64 e (p * 2 ^ (32 * e)) 0 (2 ^ 40)).

Definition round_constants : list Z :=
  Eval vm_compute in map (frac_root 3) first_primes.

Definition initial_hash : list Z :=
  Eval vm_compute in map (frac_root 2) (firstn 8 first_primes).

(** Big-endian bytes of [x], [n] of them. *)
Fixpoint be_bytes (n : nat) (x : Z) : list Z :=
  match n with
  | O => []
  | S n' => (Z.shiftr x (8 * Z.of_nat n')) mod 256 :: be_bytes n' x
  end.

Definition be_word (bs : list Z) : Z :=
  fold_left (fun acc b => acc * 256 + b) bs 0.

(** The message, a 1 bit, zero bits up to 56 modulo 64 bytes, the bit length
    on 8 bytes. *)
Definition pad (msg : list Z) : list Z :=
  let len := Z.of_nat (List.length msg) in
  let zeros := Z.to_nat ((55 - len) mod 64) in
  msg ++ [128] ++ repeat 0 zeros ++ be_bytes 8 (8 * len).

Fixpoint chunks (fuel size : nat) {A} (l : list A) : list (list A) :=
  match fuel, l with
  | S fuel', _ :: _ => firstn size l :: chunks fuel' size (skipn size l)
  | _, _ => []
  end.

Definition w_at (w : list Z) (i : nat) : Z := nth i w 0.

(** The 64 words of the message schedule of one block. *)
Fixpoint schedule (n : nat) (w : list Z) : list Z :=
  match n with
  | O => w
  | S n' =>
      let i := List.length w in
      schedule n'
        (w ++ [add (add (small_sigma1 (w_at w (i - 2))) (w_at w (i - 7)))
                   (add (small_sigma0 (w_at w (i - 15))) (w_at w (i - 16)))])
  end.

Definition round (s : list Z) (kw : Z * Z) : list Z :=
  match s with
  | [a; b; c; d; e; f; g; h] =>
      let t1 := add (add (add h (big_sigma1 e)) (ch e f g))
                    (add (fst kw) (snd kw)) in
      let t2 := add (big_sigma0 a) (maj a b c) in
      [add t1 t2; a; b; c; add d t1; e; f; g]
  | _ => s
  end.

Definition compress (h : list Z) (block : list Z) : list Z :=
  let w := schedule 48 (map be_word (chunks 16 4 block)) in
  let s := fold_left round (combine round_constants w) h in
  map (fun p => add (fst p) (snd p)) (combine h s).

Definition digest (msg : list Z) : list Z :=
  let padded := pad msg in
  let blocks := chunks (List.length padded) 64 padded in
  flat_map (be_bytes 4) (fold_left compress blocks initial_hash).

End Sha256.

(** [str.encode("utf-8")] on code points below 256. *)
Definition encode_utf8 (s : string) : list Z :=
  flat_map (fun c =>
              let n := Z.of_N (code c) in
              if (n <? 128)%Z then [n]
              else [(192 + Z.shiftr n 6)%Z; (128 + Z.land n 63)%Z])
           (chars s).

Definition hex_digit (n : Z) : ascii :=
  nth (Z.to_nat n) (chars "0123456789abcdef") "0"%char.

Definition hexlify (bytes : list Z) : string :=
  string_of_list_ascii
    (flat_map (fun b => [hex_digit (b / 16); hex_digit (b mod 16)]%Z) bytes).

Definition reference_sha256_hexdigest (s : string) : string :=
  hexlify (Sha256.digest (encode_utf8 s)).

(** [datetime.strptime(text, "%Y-%m-%d %H:%M:%S")] on a [string], read off
    the regular expression the library builds for that format,

    (?P<Y>\d\d\d\d)-(?P<m>1[0-2]|0[1-9]|[1-9])-(?P<d>3[0-1]|[1-2]\d|0[1-9]|[1-9]| [1-9])\s+(?P<H>2[0-3]|[0-1]\d|\d):(?P<M>[0-5]\d|\d):(?P<S>6[0-1]|[0-5]\d|\d)

    matched at the start of the text, with nothing left after it, and the
    fields then making a [datetime].  The result is the instant in seconds
    since 0001-01-01 00:00:00. *)
Module Timestamp.
Local Open Scope Z_scope.

Definition digit_value (c : ascii) : option Z :=
  if Re.is_digit c then Some (Z.of_N (code c) - 48) else None.

Definition is_leap (y : Z) : bool :=
  (y mod 4 =? 0) && (negb (y mod 100 =? 0) || (y mod 400 =? 0)).

Definition days_in_month (y m : Z) : Z :=
  if m =? 2 then (if is_leap y then 29 else 28)
  else if (m =? 4) || (m =? 6) || (m =? 9) || (m =? 11) then 30
  else 31.

Definition days_before_year (y : Z) : Z :=
  (y - 1) * 365 + (y - 1) / 4 - (y - 1) / 100 + (y - 1) / 400.

Fixpoint days_before_month (y : Z) (m : nat) : Z :=
  match m with
  | O => 0
  | S m' => days_before_month y m' + days_in_month y (Z.of_nat m)
  end.

Definition instant (y mo d h mi s : Z) : option Z :=
  if (1 <=? y) && (1 <=? mo) && (mo <=? 12) && (1 <=? d)
     && (d <=? days_in_month y mo) && (h <=? 23) && (mi <=? 59) && (s <=? 59)
  then Some ((((days_before_year y + days_before_month y (Z.to_nat (mo - 1))
                + (d - 1)) * 24 + h) * 60 + mi) * 60 + s)
  else None.

Definition orelse {A} (first second : option A) : option A :=
  match first with
  | Some r => Some r
  | None => second
  end.

(** Two digits [x y] that [ok] admits, then [k]. *)
Definition two_digits {A} (ok : Z -> Z -> bool) (s : list ascii)
                      (k : Z -> list ascii -> option A) : option A :=
  match s with
  | a :: b :: rest =>
      match digit_value a, digit_value b with
      | Some x, Some y => if ok x y then k (10 * x + y) rest else None
      | _, _ => None
      end
  | _ => None
  end.

(** One digit that [ok] admits, then [k]. *)
Definition one_digit {A} (ok : Z -> bool) (s : list ascii)
                     (k : Z -> list ascii -> option A) : option A :=
  match s with
  | a :: rest =>
      match digit_value a with
      | Some x => if ok x then k x rest else None
      | None => None
      end
  | [] => None
  end.

Definition literal {A} (c : ascii) (s : list ascii)
                   (k : list ascii -> option A) : option A :=
  match s with
  | a :: rest => if Ascii.eqb a c then k rest else None
  | [] => None
  end.

(** [\s] on one-byte characters. *)
Definition is_space (c : ascii) : bool :=
  existsb (N.eqb (code c)) [9; 10; 11; 12; 13; 28; 29; 30; 31; 32; 133; 160]%N.

(** [\s*], the longest run first. *)
Fixpoint spaces {A} (s : list ascii) (k : list ascii -> option A) : option A :=
  match s with
  | c :: s' => if is_space c then orelse (spaces s' k) (k s) else k s
  | [] => k s
  end.

(** [\s+] *)
Definition spaces1 {A} (s : list ascii) (k : list ascii -> option A) : option A :=
  match s with
  | c :: s' => if is_space c then spaces s' k else None
  | [] => None
  end.

Definition year {A} (s : list ascii) (k : Z -> list ascii -> option A) : option A :=
  two_digits (fun _ _ => true) s (fun hi s' =>
    two_digits (fun _ _ => true) s' (fun lo s'' => k (100 * hi + lo) s'')).

Definition month {A} (s : list ascii) (k : Z -> list ascii -> option A) : option A :=
  orelse (two_digits (fun x y => (x =? 1) && (y <=? 2)) s k)
 (orelse (two_digits (fun x y => (x =? 0) && (1 <=? y)) s k)
         (one_digit (fun x => 1 <=? x) s k)).

Definition day {A} (s : list ascii) (k : Z -> list ascii -> option A) : option A :=
  orelse (two_digits (fun x y => (x =? 3) && (y <=? 1)) s k)
 (orelse (two_digits (fun x y => (1 <=? x) && (x <=? 2)) s k)
 (orelse (two_digits (fun x y => (x =? 0) && (1 <=? y)) s k)
 (orelse (one_digit (fun x => 1 <=? x) s k)
         (literal " " s (fun s' => one_digit (fun x => 1 <=? x) s' k))))).

Definition hour {A} (s : list ascii) (k : Z -> list ascii -> option A) : option A :=
  orelse (two_digits (fun x y => (x =? 2) && (y <=? 3)) s k)
 (orelse (two_digits (fun x y => x <=? 1) s k)
         (one_digit (fun _ => true) s k)).

Definition minute {A} (s : list ascii) (k : Z -> list ascii -> option A) : option A :=
  orelse (two_digits (fun x y => x <=? 5) s k)
         (one_digit (fun _ => true) s k).

Definition second {A} (s : list ascii) (k : Z -> list ascii -> option A) : option A :=
  orelse (two_digits (fun x y => (x =? 6) && (y <=? 1)) s k)
 (orelse (two_digits (fun x y => x <=? 5) s k)
         (one_digit (fun _ => true) s k)).

(** The fields of the match and what the match leaves of the text. *)
Definition fields (s : list ascii) : option (Z * Z * Z * Z * Z * Z * list ascii) :=
  year s (fun y s =>
  literal "-" s (fun s =>
  month s (fun mo s =>
  literal "-" s (fun s =>
  day s (fun d s =>
  spaces1 s (fun s =>
  hour s (fun h s =>
  literal ":" s (fun s =>
  minute s (fun mi s =>
  literal ":" s (fun s =>
  second s (fun sec s => Some (y, mo, d, h, mi, sec, s)))))))))))).

Definition parse (text : string) : option Z :=
  match fields (chars text) with
  | Some (y, mo, d, h, mi, sec, []) => instant y mo d h mi sec
  | _ => None
  end.

End Timestamp.

(** SQLite's cast of a text to NUMERIC reads the longest numeric prefix; the
    text is true when that number is not zero.  Here: optional blanks, an
    optional sign, then digits with at most one point, true when one of the
    digits is not 0 (an exponent that would round the number to zero is not
    looked at). *)
Module SqlText.

Definition is_blank (c : ascii) : bool :=
  existsb (N.eqb (code c)) [9; 10; 11; 12; 13; 32]%N.

Fixpoint mantissa_nonzero (seen_point : bool) (s : list ascii) : bool :=
  match s with
  | [] => false
  | c :: s' =>
      if Re.is_digit c then negb (Ascii.eqb c "0") || mantissa_nonzero seen_point s'
      else if Ascii.eqb c "." && negb seen_point then mantissa_nonzero true s'
      else false
  end.

Definition after_sign (s : list ascii) : list ascii :=
  match s with
  | c :: s' => if Ascii.eqb c "-" || Ascii.eqb c "+" then s' else s
  | [] => s
  end.

Fixpoint skip_blanks (s : list ascii) : list ascii :=
  match s with
  | c :: s' => if is_blank c then skip_blanks s' else s
  | [] => s
  end.

Definition truth (text : string) : bool :=
  mantissa_nonzero false (after_sign (skip_blanks (chars text))).

End SqlText.

(** The decimal digits of Unicode 14.0 (the database of CPython 3.11)
    beyond Latin-1: 65 runs of ten, each given by its digit zero. *)
Module Unicode14.

Definition zeros : list N :=
  [0x660; 0x6f0; 0x7c0; 0x966; 0x9e6; 0xa66; 0xae6; 0xb66; 0xbe6; 0xc66;
   0xce6; 0xd66; 0xde6; 0xe50; 0xed0; 0xf20; 0x1040; 0x1090; 0x17e0; 0x1810;
   0x1946; 0x19d0; 0x1a80; 0x1a90; 0x1b50; 0x1bb0; 0x1c40; 0x1c50; 0xa620;
   0xa8d0; 0xa900; 0xa9d0; 0xa9f0; 0xaa50; 0xabf0; 0xff10; 0x104a0; 0x10d30;
   0x11066; 0x110f0; 0x11136; 0x111d0; 0x112f0; 0x11450; 0x114d0; 0x11650;
   0x116c0; 0x11730; 0x118e0; 0x11950; 0x11c50; 0x11d50; 0x11da0; 0x16a60;
   0x16ac0; 0x16b50; 0x1d7ce; 0x1d7d8; 0x1d7e2; 0x1d7ec; 0x1d7f6; 0x1e140;
   0x1e2f0; 0x1e950; 0x1fbf0]%N.

Definition is_decimal (c : N) : bool :=
  existsb (fun zero => (zero <=? c) && (c <? zero + 10))%N zeros.

End Unicode14.

#[local] Instance reference_unicode : UnicodeData := {
  decimal_above_latin1 := Unicode14.is_decimal
}.

(** The clock reads 2023-05-01 12:00:00. *)
Definition reference_now : Z :=
  match Timestamp.parse "2023-05-01 12:00:00" with
  | Some t => t
  | None => 0%Z
  end.

#[local] Instance reference_runtime : Runtime := {
  sha256_hexdigest := reference_sha256_hexdigest;
  strptime := Timestamp.parse;
  datetime_now := reference_now;
  sql_truth := SqlText.truth
}.

(** The key [generate_key(15)] is taken to draw in the examples. *)
Definition drawn_key : string := "aB3!xYz9_Qw7+Kp".

(** The table of a store made on a fresh file. *)
Definition fresh_store : table := __init__ None drawn_key.

(** Tuples for the examples: a student, a second tuple with the student's
    username and another secret, and a tuple whose window runs backwards. *)
Definition test_std : account_tuple :=
  ("test_std", "password", "student", "2023-04-17 00:00:00", "2023-05-17 00:00:00").
Definition test_std_again : account_tuple :=
  ("test_std", "hunter2", "teacher", "2023-06-01 00:00:00", "2023-07-01 00:00:00").
Definition test_backwards : account_tuple :=
  ("test_late", "password", "student", "2023-05-17 00:00:00", "2023-04-17 00:00:00").

(** The fresh store after [create_accounts([test_std])]. *)
Definition school_store : table := snd (create_accounts [test_std] fresh_store).

(* ================================================================= *)
(** ** The properties as the specification words them *)

Definition is_lower : ascii -> bool := in_range "a" "z".
Definition is_upper : ascii -> bool := in_range "A" "Z".
Definition is_symbol (c : ascii) : bool := existsb (Ascii.eqb c) (chars symbols).

(** The same classes on code points; a digit is a decimal digit of any
    script, as for the pattern. *)
Module Cp.

Definition is_lower (c : N) : bool := ((code "a" <=? c) && (c <=? code "z"))%N.
Definition is_upper (c : N) : bool := ((code "A" <=? c) && (c <=? code "Z"))%N.
Definition is_symbol (c : N) : bool := existsb (N.eqb c) (codepoints symbols).

(** The characters the pattern's last class admits. *)
Definition is_allowed {u : UnicodeData} (c : N) : bool :=
  is_lower c || is_upper c || Re.is_decimal c || is_symbol c.

End Cp.

(** "at least 8 characters and contains at least one digit, one lowercase
    letter, one uppercase letter, and one symbol from the fixed set". *)
Definition strong_as_specified {u : UnicodeData} (secret : text) : bool :=
  Nat.leb 8 (List.length secret)
  && existsb Re.is_decimal secret
  && existsb Cp.is_lower secret
  && existsb Cp.is_upper secret
  && existsb Cp.is_symbol secret.

(** The one-byte characters the pattern's last class admits. *)
Definition is_allowed (c : ascii) : bool :=
  is_lower c || is_upper c || Re.is_digit c || is_symbol c.

(** Number of rows with role admin. *)
Definition admin_count (t : table) : nat :=
  List.length (filter (fun r => account.role r =? "admin") (rows t)).

(** Rows of the table that carry a given username. *)
Definition rows_of (username : string) (t : table) : list row :=
  filter (fun r => account.username r =? username) (rows t).

(** "its time window is invalid (end <= start)": both ends are timestamps
    and the end is not after the start. *)
Definition window_not_after {rt : Runtime} (a : account_tuple) : Prop :=
  exists s e, strptime (acc3 a) = Some s /\ strptime (acc4 a) = Some e
              /\ (e <= s)%Z.

(** Both ends are timestamps and the end is after the start. *)
Definition window_valid {rt : Runtime} (start_time end_time : string) : Prop :=
  exists s e, strptime start_time = Some s /\ strptime end_time = Some e
              /\ (s < e)%Z.

(** A tuple passes the checks of [create_accounts] on a table: its username
    is free there and its window is valid. *)
Definition passes {rt : Runtime} (t : table) (a : account_tuple) : Prop :=
  rows_of (acc0 a) t = [] /\ window_valid (acc3 a) (acc4 a).

(** The exception that goes with the way a tuple fails those checks:
    DuplicateValueError for a username in use, TimeSetError for a window that
    ends not after its start, the ValueError of [strptime] for a timestamp
    that does not parse. *)
Definition rejected_with {rt : Runtime} (t : table) (a : account_tuple) (e : exn)
  : Prop :=
  (rows_of (acc0 a) t <> []
   /\ e = Exn DuplicateValueError (Some (acc0 a ++ " already in used.")%string))
  \/ (window_not_after a
      /\ e = Exn TimeSetError
               (Some (acc0 a ++ " time set error, " ++ acc4 a
                      ++ " early than " ++ acc3 a)%string))
  \/ ((strptime (acc3 a) = None \/ strptime (acc4 a) = None)
      /\ e = Exn ValueError None).

(** The rows that inserting the tuples of a batch one after the other adds
    to a table whose counter is [id]. *)
Fixpoint stored {rt : Runtime} (id : Z) (batch : list account_tuple) : list row :=
  match batch with
  | [] => []
  | a :: batch' =>
      account.Row (id + 1) (acc0 a) (get_hex_sha (acc1 a)) (acc2 a) (acc3 a) (acc4 a)
      :: stored (id + 1) batch'
  end.

(** The row [change_password] writes in place of a row of the username. *)
Definition with_password (digest : string) (r : row) : row :=
  account.Row (account.user_id r) (account.username r) digest (account.role r)
              (account.start_time r) (account.end_time r).

(** What identifies an account: its user_id, username and role. *)
Definition identity (r : row) : Z * string * string :=
  (account.user_id r, account.username r, account.role r).

(** The usernames of the table, row after row. *)
Definition usernames (t : table) : list string := map account.username (rows t).

(** No user_id is above the counter and no two rows share one. *)
Definition ids_fresh (t : table) : Prop :=
  Forall (fun r => (account.user_id r <= seq t)%Z) (rows t)
  /\ NoDup (map account.user_id (rows t)).

(* ================================================================= *)
(** ** The password format *)

Section PasswordFormat.
Context {u : UnicodeData}.

Lemma many_spec p k n s :
  Re.many p k n s = true
  <-> exists pre rest, s = pre ++ rest /\ forallb p pre = true
                       /\ k (n + List.length pre) rest = true.
Proof.
  revert n. induction s as [|c s IH]; intros n; simpl.
  - split.
    + intros H. exists [], []. simpl. rewrite Nat.add_0_r. auto.
    + intros (pre & rest & E & _ & H).
      symmetry in E. apply app_eq_nil in E. destruct E as [-> ->].
      simpl in H. rewrite Nat.add_0_r in H. exact H.
  - assert (Hstop : k n (c :: s) = true ->
              exists pre rest, c :: s = pre ++ rest /\ forallb p pre = true
                               /\ k (n + List.length pre) rest = true).
    { intros H. exists [], (c :: s). simpl. rewrite Nat.add_0_r. auto. }
    split.
    + destruct (p c) eqn:Hc; [|exact Hstop].
      intros H. apply orb_true_iff in H. destruct H as [H | H]; [|auto].
      apply IH in H. destruct H as (pre & rest & -> & Hp & Hk).
      exists (c :: pre), rest. simpl. rewrite Hc, Hp.
      rewrite Nat.add_succ_r. auto.
    + intros (pre & rest & E & Hp & Hk).
      destruct pre as [|x pre]; simpl in *.
      * rewrite Nat.add_0_r in Hk. subst rest.
        destruct (p c); [rewrite Hk; apply orb_true_r | exact Hk].
      * injection E as <- ->. apply andb_true_iff in Hp.
        destruct Hp as [Hx Hp]. rewrite Hx.
        apply orb_true_iff. left. apply IH.
        exists pre, rest. rewrite Nat.add_succ_r in Hk. auto.
Qed.

(** A lookahead [(?=.*a)] at the start of the subject: some character that
    [a] accepts, with no newline before it. *)
Lemma look_iff a cs :
  Re.run (Re.AtLeast 0 Re.Dot ;; Re.One a)%re 0 cs (fun _ _ => true) = true
  <-> exists pre c rest, cs = pre ++ c :: rest
                         /\ forallb (Re.atom_ok Re.Dot) pre = true
                         /\ Re.atom_ok a c = true.
Proof.
  cbn [Re.run]. rewrite many_spec. split.
  - intros (pre & rest & -> & Hp & Hk). cbn [Nat.leb andb] in Hk.
    destruct rest as [|c rest]; [discriminate|].
    rewrite andb_true_r in Hk. exists pre, c, rest. auto.
  - intros (pre & c & rest & -> & Hp & Hc).
    exists pre, (c :: rest). cbn [Nat.leb andb]. rewrite Hc. auto.
Qed.

Lemma allowed_not_newline c :
  Cp.is_allowed c = true -> Re.atom_ok Re.Dot c = true.
Proof.
  intros H. cbn [Re.atom_ok]. destruct (N.eqb_spec c (code newline)) as [->|_].
  - vm_compute in H. discriminate H.
  - reflexivity.
Qed.

Lemma class_allowed c :
  Re.atom_ok
    (Re.Class [Re.Range "a" "z"; Re.Range "A" "Z"; Re.Digit; Re.Lits symbols]) c
  = Cp.is_allowed c.
Proof.
  unfold Cp.is_allowed, Cp.is_lower, Cp.is_upper, Cp.is_symbol.
  cbn [Re.atom_ok existsb Re.item_ok].
  rewrite orb_false_r, !orb_assoc. reflexivity.
Qed.

(** In a subject made of allowed characters and at most a final newline, a
    lookahead succeeds exactly when one of the allowed characters is
    accepted by its atom. *)
Lemma look_body a body tail :
  forallb Cp.is_allowed body = true ->
  tail = [] \/ tail = [code newline] ->
  Re.atom_ok a (code newline) = false ->
  (Re.run (Re.AtLeast 0 Re.Dot ;; Re.One a)%re 0 (body ++ tail) (fun _ _ => true)
   = true
   <-> existsb (Re.atom_ok a) body = true).
Proof.
  intros Hbody Htail Hnl. rewrite look_iff, existsb_exists. split.
  - intros (pre & c & rest & E & _ & Hc). exists c. split; [|exact Hc].
    assert (Hin : In c (body ++ tail)) by (rewrite E; apply in_elt).
    apply in_app_or in Hin. destruct Hin as [Hin | Hin]; [exact Hin|].
    exfalso. destruct Htail as [-> | ->]; cbn [In] in Hin; [tauto|].
    destruct Hin as [<- | []]. congruence.
  - intros (c & Hin & Hc). apply in_split in Hin.
    destruct Hin as (l1 & l2 & ->).
    exists l1, c, (l2 ++ tail). split; [|split].
    + rewrite <- app_assoc. reflexivity.
    + rewrite forallb_app in Hbody. apply andb_true_iff in Hbody.
      destruct Hbody as [H1 _]. rewrite forallb_forall in *.
      intros x Hx. apply allowed_not_newline, H1, Hx.
    + exact Hc.
Qed.

Lemma forallb_pointwise {A} (f g : A -> bool) (l : list A) :
  (forall x, f x = g x) -> forallb f l = forallb g l.
Proof.
  intros H. induction l as [|x l IH]; simpl; [reflexivity|].
  rewrite H, IH. reflexivity.
Qed.

(** The part of the pattern after the lookaheads: the subject is at least
    eight allowed characters, then nothing or one newline. *)
Lemma body_iff cs :
  Re.run (Re.AtLeast 8
            (Re.Class [Re.Range "a" "z"; Re.Range "A" "Z"; Re.Digit;
                       Re.Lits symbols]) ;; Re.Eol)%re 0 cs (fun _ _ => true)
  = true
  <-> exists body tail, cs = body ++ tail /\ (tail = [] \/ tail = [code newline])
                        /\ 8 <= List.length body
                        /\ forallb Cp.is_allowed body = true.
Proof.
  cbn [Re.run]. rewrite many_spec. split.
  - intros (pre & rest & -> & Hp & Hk).
    apply andb_true_iff in Hk. destruct Hk as [Hlen Hrest].
    apply Nat.leb_le in Hlen. cbn [Nat.add] in Hlen.
    exists pre, rest. split; [reflexivity|]. split; [|split].
    + destruct rest as [|c [|c' rest]]; [auto | | discriminate].
      rewrite andb_true_r in Hrest. apply N.eqb_eq in Hrest. subst. auto.
    + exact Hlen.
    + rewrite (forallb_pointwise _ _ _ class_allowed) in Hp. exact Hp.
  - intros (body & tail & -> & Htail & Hlen & Hall).
    exists body, tail. split; [reflexivity|]. split.
    + rewrite (forallb_pointwise _ _ _ class_allowed). exact Hall.
    + apply andb_true_iff. split; [apply Nat.leb_le; exact Hlen|].
      destruct Htail as [-> | ->]; [reflexivity|].
      rewrite N.eqb_refl. reflexivity.
Qed.

Lemma existsb_class1 (f : N -> bool) i body :
  (forall c, Re.item_ok i c = f c) ->
  existsb (Re.atom_ok (Re.Class [i])) body = existsb f body.
Proof.
  intros H. induction body as [|c body IH]; simpl; [reflexivity|].
  rewrite orb_false_r, H. f_equal. exact IH.
Qed.

(** C7.  For every secret, whatever code points it is made of:
    [verify_password] accepts it exactly when, a final newline set aside, it
    is made only of the letters a-z and A-Z, decimal digits (of any script,
    as the pattern's digit class takes them) and the symbols
    ! @ # $ % ^ & * ( ) _ +, counts at least 8 of them, and holds a decimal
    digit, a lowercase letter a-z, an uppercase letter A-Z and one of the
    symbols. *)
Theorem verify_password_iff (secret : text) :
  verify_password secret = true
  <-> exists body,
        (secret = body \/ secret = body ++ [code newline])
        /\ 8 <= List.length body
        /\ forallb Cp.is_allowed body = true
        /\ existsb Re.is_decimal body = true
        /\ existsb Cp.is_lower body = true
        /\ existsb Cp.is_upper body = true
        /\ existsb Cp.is_symbol body = true.
Proof.
  unfold verify_password, Re.matches.
  set (cs := secret).
  assert (Hsplit :
    Re.run pattern 0 cs (fun _ _ => true)
    = Re.run (Re.AtLeast 0 Re.Dot ;; Re.One Re.Esc_d)%re 0 cs (fun _ _ => true)
      && (Re.run (Re.AtLeast 0 Re.Dot ;; Re.One (Re.Class [Re.Range "a" "z"]))%re
                 0 cs (fun _ _ => true)
      && (Re.run (Re.AtLeast 0 Re.Dot ;; Re.One (Re.Class [Re.Range "A" "Z"]))%re
                 0 cs (fun _ _ => true)
      && (Re.run (Re.AtLeast 0 Re.Dot ;; Re.One (Re.Class [Re.Lits symbols]))%re
                 0 cs (fun _ _ => true)
      && Re.run (Re.AtLeast 8
                   (Re.Class [Re.Range "a" "z"; Re.Range "A" "Z"; Re.Digit;
                              Re.Lits symbols]) ;; Re.Eol)%re
                0 cs (fun _ _ => true))))) by reflexivity.
  assert (Hd : forall body, existsb (Re.atom_ok Re.Esc_d) body
                            = existsb Re.is_decimal body) by reflexivity.
  assert (Hl : forall body, existsb (Re.atom_ok (Re.Class [Re.Range "a" "z"])) body
                            = existsb Cp.is_lower body)
    by (intros; apply existsb_class1; reflexivity).
  assert (Hu : forall body, existsb (Re.atom_ok (Re.Class [Re.Range "A" "Z"])) body
                            = existsb Cp.is_upper body)
    by (intros; apply existsb_class1; reflexivity).
  assert (Hs : forall body, existsb (Re.atom_ok (Re.Class [Re.Lits symbols])) body
                            = existsb Cp.is_symbol body)
    by (intros; apply existsb_class1; reflexivity).
  replace (if Re.run pattern 0 cs (fun _ _ => true) then true else false)
    with (Re.run pattern 0 cs (fun _ _ => true))
    by (destruct (Re.run pattern 0 cs (fun _ _ => true)); reflexivity).
  rewrite Hsplit. clear Hsplit.
  split.
  - intros Hrun.
    apply andb_true_iff in Hrun. destruct Hrun as [H1 Hrun].
    apply andb_true_iff in Hrun. destruct Hrun as [H2 Hrun].
    apply andb_true_iff in Hrun. destruct Hrun as [H3 Hrun].
    apply andb_true_iff in Hrun. destruct Hrun as [H4 H5].
    apply body_iff in H5.
    destruct H5 as (body & tail & E & Htail & Hlen & Hall).
    rewrite E in H1, H2, H3, H4.
    apply (look_body _ _ _ Hall Htail) in H1; [|reflexivity].
    apply (look_body _ _ _ Hall Htail) in H2; [|reflexivity].
    apply (look_body _ _ _ Hall Htail) in H3; [|reflexivity].
    apply (look_body _ _ _ Hall Htail) in H4; [|reflexivity].
    rewrite Hd in H1. rewrite Hl in H2. rewrite Hu in H3. rewrite Hs in H4.
    exists body. split; [|auto 10].
    destruct Htail as [-> | ->]; [left; rewrite E; apply app_nil_r | right; exact E].
  - intros (body & Hcs & Hlen & Hall & H1 & H2 & H3 & H4).
    assert (Hex : exists tail, cs = body ++ tail /\ (tail = [] \/ tail = [code newline])).
    { destruct Hcs as [E | E].
      - exists []. rewrite app_nil_r. auto.
      - exists [code newline]. auto. }
    destruct Hex as (tail & E & Htail).
    rewrite E.
    rewrite <- Hd in H1. rewrite <- Hl in H2. rewrite <- Hu in H3.
    rewrite <- Hs in H4.
    apply (look_body _ _ _ Hall Htail) in H1; [|reflexivity].
    apply (look_body _ _ _ Hall Htail) in H2; [|reflexivity].
    apply (look_body _ _ _ Hall Htail) in H3; [|reflexivity].
    apply (look_body _ _ _ Hall Htail) in H4; [|reflexivity].
    rewrite H1, H2, H3, H4. cbn [andb].
    replace (Re.run _ 0 (body ++ tail) (fun _ _ => true)) with true; [reflexivity|].
    symmetry. apply body_iff. exists body, tail. auto.
Qed.

End PasswordFormat.

(* ================================================================= *)
(** ** Properties of the store operations *)

Section Properties.
Context {rt : Runtime}.

Ltac unfold_m :=
  unfold bind, ret, raise, lift, select_first, select_count, insert, update,
    try_except in *.

(** *** Queries *)

Lemma filter_nil_iff_existsb {A} (p : A -> bool) (l : list A) :
  existsb p l = negb (Z.of_nat (List.length (filter p l)) =? 0)%Z.
Proof.
  induction l as [|x l IH]; simpl; [reflexivity|].
  destruct (p x); simpl; [reflexivity | exact IH].
Qed.

Lemma find_hd_filter {A} (p : A -> bool) (l : list A) :
  find p l = hd_error (filter p l).
Proof.
  induction l as [|x l IH]; simpl; [reflexivity|].
  destruct (p x); simpl; [reflexivity | exact IH].
Qed.

Lemma find_none_filter {A} (p : A -> bool) (l : list A) :
  find p l = None <-> filter p l = [].
Proof.
  rewrite find_hd_filter. destruct (filter p l); simpl; split; congruence.
Qed.

Lemma check_username_exits_eq username t :
  check_username_exits username t
  = (Return (existsb (fun r => account.username r =? username) (rows t)), t).
Proof.
  unfold check_username_exits. unfold_m.
  rewrite filter_nil_iff_existsb.
  destruct (negb _); reflexivity.
Qed.

Lemma known_iff_rows_of username t :
  existsb (fun r => account.username r =? username) (rows t) = false
  <-> rows_of username t = [].
Proof.
  unfold rows_of.
  induction (rows t) as [|r l IH]; simpl; [tauto|].
  destruct (account.username r =? username); simpl; [split; discriminate | exact IH].
Qed.

(** *** Verify credentials *)

Lemma verify_account_eq username password t :
  verify_account username password t
  = (match find (fun r => (account.username r =? username)
                          && (account.password r =? get_hex_sha password))
                (rows t) with
     | Some r => Return r
     | None =>
         match find (fun r => account.username r =? username) (rows t) with
         | Some _ =>
             Raise (Exn PasswordError (Some (username ++ "'s password wrong")%string))
         | None =>
             Raise (Exn AccountError (Some (username ++ " not found")%string))
         end
     end, t).
Proof.
  unfold verify_account. unfold_m. cbv zeta.
  destruct (find (fun r => (account.username r =? username) && _) (rows t));
    [reflexivity|].
  destruct (find _ (rows t)); reflexivity.
Qed.

(** C10.  [verify_account] leaves the table as it found it, whatever it
    returns or raises. *)
Theorem verify_account_keeps_table username password t :
  snd (verify_account username password t) = t.
Proof.
  rewrite verify_account_eq. reflexivity.
Qed.

(** C5.  The three outcomes of [verify_account].  When some row carries the
    username and the digest of the secret, a row that does is returned (and
    it is a row of the table).  When some row carries the username but none
    carries it together with that digest, PasswordError is raised.  When no
    row carries the username, AccountError is raised. *)
Theorem verify_account_three_way username password t :
  ((exists r, In r (rows t) /\ account.username r = username
              /\ account.password r = get_hex_sha password) ->
   exists r, fst (verify_account username password t) = Return r
             /\ In r (rows t) /\ account.username r = username
             /\ account.password r = get_hex_sha password)
  /\
  ((exists r, In r (rows t) /\ account.username r = username) ->
   (forall r, In r (rows t) -> account.username r = username ->
              account.password r <> get_hex_sha password) ->
   fst (verify_account username password t)
   = Raise (Exn PasswordError (Some (username ++ "'s password wrong")%string)))
  /\
  ((forall r, In r (rows t) -> account.username r <> username) ->
   fst (verify_account username password t)
   = Raise (Exn AccountError (Some (username ++ " not found")%string))).
Proof.
  rewrite verify_account_eq. cbn [fst].
  destruct (find _ (rows t)) as [r1|] eqn:F;
    [ apply find_some in F; destruct F as [Hin1 Hb];
      apply andb_true_iff in Hb; destruct Hb as [Hu1 Hp1];
      apply String.eqb_eq in Hu1; apply String.eqb_eq in Hp1
    | destruct (find (fun r => account.username r =? username) (rows t))
        as [r2|] eqn:G;
      [ apply find_some in G; destruct G as [Hin2 Hu2];
        apply String.eqb_eq in Hu2 | ] ].
  - split; [|split].
    + intros _. exists r1. auto.
    + intros _ Hno. exfalso. exact (Hno r1 Hin1 Hu1 Hp1).
    + intros Hno. exfalso. exact (Hno r1 Hin1 Hu1).
  - split; [|split].
    + intros (r & Hin & Hu & Hp). exfalso.
      apply (find_none _ _ F) in Hin. simpl in Hin.
      rewrite Hu, Hp, !String.eqb_refl in Hin. discriminate.
    + reflexivity.
    + intros Hno. exfalso. exact (Hno r2 Hin2 Hu2).
  - split; [|split].
    + intros (r & Hin & Hu & Hp). exfalso.
      apply (find_none _ _ G) in Hin. simpl in Hin.
      rewrite Hu, String.eqb_refl in Hin. discriminate.
    + intros (r & Hin & Hu) _. exfalso.
      apply (find_none _ _ G) in Hin. simpl in Hin.
      rewrite Hu, String.eqb_refl in Hin. discriminate.
    + reflexivity.
Qed.

(** *** Change password *)

(** C1.  What [change_password] does when the credentials are refused.  The
    clause [except AccountError or PasswordError] names the class
    [AccountError] alone: an AccountError becomes the result [False], a
    PasswordError leaves the call as it was raised.  The table is unchanged
    in both cases. *)
Theorem change_password_on_refusal username old_pwd new_pwd t text :
  (fst (verify_account username old_pwd t) = Raise (Exn AccountError text) ->
   change_password username old_pwd new_pwd t = (Return false, t))
  /\
  (fst (verify_account username old_pwd t) = Raise (Exn PasswordError text) ->
   change_password username old_pwd new_pwd t
   = (Raise (Exn PasswordError text), t)).
Proof.
  pose proof (f_equal snd (verify_account_eq username old_pwd t)) as Hframe.
  unfold change_password, try_except.
  destruct (verify_account username old_pwd t) as [o t'].
  simpl in Hframe. subst t'. simpl.
  split; intros ->; reflexivity.
Qed.

(** *** Fetch base info *)

(** C4.  What [username_get_base_info] returns: of the first row carrying
    the username, the columns 0, 1, 3 and 4, which are user_id, username,
    role and start_time (not role, start_time and end_time).  With no such
    row the subscript of [None] raises TypeError. *)
Theorem username_get_base_info_columns username t :
  (forall r, hd_error (rows_of username t) = Some r ->
     username_get_base_info username t
     = (Return (VInt (account.user_id r), VText (account.username r),
                VText (account.role r), VText (account.start_time r)), t))
  /\
  (rows_of username t = [] ->
     username_get_base_info username t = (Raise (Exn TypeError None), t)).
Proof.
  unfold username_get_base_info, rows_of. unfold_m.
  rewrite find_hd_filter.
  split.
  - intros r ->. reflexivity.
  - intros ->. reflexivity.
Qed.

(** *** Initialisation *)

Lemma init_admin_when_present admin_pwd t :
  admin_count t <> 0 -> _init_admin_if_not_exits admin_pwd t = (Return tt, t).
Proof.
  unfold admin_count, _init_admin_if_not_exits. unfold_m. intros H.
  destruct (Z.eqb_spec (Z.of_nat (List.length
              (filter (fun r => account.role r =? "admin") (rows t)))) 0%Z) as [E|E].
  - lia.
  - reflexivity.
Qed.

Lemma init_admin_when_absent admin_pwd t :
  admin_count t = 0 ->
  _init_admin_if_not_exits admin_pwd t
  = (Return tt,
     Table (rows t ++ [account.Row (seq t + 1) "admin" (get_hex_sha admin_pwd)
                         "admin" "2023-01-01 00:00:00" "2030-01-01 00:00:00"])
           (seq t + 1)).
Proof.
  unfold admin_count, _init_admin_if_not_exits. unfold_m. intros H.
  rewrite H. reflexivity.
Qed.

Lemma admin_count_after_insert admin_pwd t :
  admin_count t = 0 ->
  admin_count (snd (_init_admin_if_not_exits admin_pwd t)) = 1.
Proof.
  intros H. rewrite (init_admin_when_absent _ _ H). simpl.
  unfold admin_count in *. simpl.
  rewrite filter_app, length_app, H. reflexivity.
Qed.

(** C9.  Initialising a new store and initialising it again leaves exactly
    one row of role admin, whatever keys are drawn; the second
    initialisation changes nothing.  In general [_init_admin_if_not_exits]
    leaves a table with an admin row untouched, and adds one admin row to a
    table without any. *)
Theorem init_twice_one_admin :
  (forall key1 key2,
     admin_count (__init__ None key1) = 1
     /\ __init__ (Some (__init__ None key1)) key2 = __init__ None key1
     /\ admin_count (__init__ (Some (__init__ None key1)) key2) = 1)
  /\
  (forall key t, admin_count t <> 0 ->
     snd (_init_admin_if_not_exits key t) = t)
  /\
  (forall key t, admin_count t = 0 ->
     admin_count (snd (_init_admin_if_not_exits key t)) = 1).
Proof.
  assert (Hone : forall key, admin_count (__init__ None key) = 1).
  { intros key. unfold __init__.
    apply admin_count_after_insert. reflexivity. }
  assert (Hkeep : forall key t, admin_count t <> 0 ->
                    snd (_init_admin_if_not_exits key t) = t).
  { intros key t H. rewrite (init_admin_when_present _ _ H). reflexivity. }
  split; [|split].
  - intros key1 key2.
    assert (E : __init__ (Some (__init__ None key1)) key2 = __init__ None key1).
    { unfold __init__ at 1. cbn [_create_table_if_not_exits].
      apply Hkeep. rewrite Hone. discriminate. }
    rewrite E. auto.
  - exact Hkeep.
  - intros key t. apply admin_count_after_insert.
Qed.

(** *** Bulk creation *)

Lemma create_accounts_eq batch :
  create_accounts batch = (for_each batch check_one >> for_each batch insert_one).
Proof. reflexivity. Qed.

Lemma verify_time_true start_time end_time :
  window_valid start_time end_time
  <-> exists w, verify_time start_time end_time = Return (true, w).
Proof.
  unfold window_valid, verify_time. split.
  - intros (s & e & -> & -> & Hlt).
    apply Z.ltb_lt in Hlt. rewrite Hlt. eauto.
  - intros (w & H).
    destruct (strptime start_time) as [s|]; [|discriminate].
    destruct (strptime end_time) as [e|]; [|discriminate].
    exists s, e. injection H as H _. apply Z.ltb_lt in H. auto.
Qed.

Lemma verify_time_false a :
  window_not_after a
  <-> exists w, verify_time (acc3 a) (acc4 a) = Return (false, w).
Proof.
  unfold window_not_after, verify_time. split.
  - intros (s & e & -> & -> & Hle).
    apply Z.ltb_ge in Hle. rewrite Hle. eauto.
  - intros (w & H).
    destruct (strptime (acc3 a)) as [s|]; [|discriminate].
    destruct (strptime (acc4 a)) as [e|]; [|discriminate].
    exists s, e. injection H as H _. apply Z.ltb_ge in H. auto.
Qed.

(** What the check of one tuple yields; it never touches the table. *)
Lemma check_one_eq a t :
  check_one a t
  = (if existsb (fun r => account.username r =? acc0 a) (rows t)
     then Raise (Exn DuplicateValueError (Some (acc0 a ++ " already in used.")%string))
     else match verify_time (acc3 a) (acc4 a) with
          | Raise e => Raise e
          | Return (true, _) => Return tt
          | Return (false, _) =>
              Raise (Exn TimeSetError
                       (Some (acc0 a ++ " time set error, " ++ acc4 a
                              ++ " early than " ++ acc3 a)%string))
          end, t).
Proof.
  unfold check_one, bind at 1. rewrite check_username_exits_eq.
  destruct (existsb _ (rows t)); [reflexivity|].
  unfold bind, lift, raise, ret.
  destruct (verify_time (acc3 a) (acc4 a)) as [[[|] w]|e]; reflexivity.
Qed.

Lemma check_one_cases a t :
  (check_one a t = (Return tt, t) /\ passes t a)
  \/ (exists e, check_one a t = (Raise e, t) /\ rejected_with t a e
                /\ ~ passes t a).
Proof.
  rewrite check_one_eq. unfold passes, rejected_with.
  destruct (existsb _ (rows t)) eqn:Hex.
  - right. eexists. split; [reflexivity|].
    assert (Hne : rows_of (acc0 a) t <> []).
    { intros H. apply known_iff_rows_of in H. congruence. }
    split; [left; auto | tauto].
  - apply known_iff_rows_of in Hex.
    destruct (verify_time (acc3 a) (acc4 a)) as [[[|] w]|e] eqn:Hv.
    + left. split; [reflexivity|]. split; [exact Hex|].
      apply verify_time_true. eauto.
    + right. eexists. split; [reflexivity|].
      split.
      * right; left. split; [|reflexivity]. apply verify_time_false. eauto.
      * intros [_ Hw]. apply verify_time_true in Hw. destruct Hw as [w' Hw].
        congruence.
    + right. exists e. split; [reflexivity|].
      split.
      * right; right. unfold verify_time in Hv.
        destruct (strptime (acc3 a)); [|injection Hv as <-; auto].
        destruct (strptime (acc4 a)); [discriminate|injection Hv as <-; auto].
      * intros [_ Hw]. apply verify_time_true in Hw. destruct Hw as [w' Hw].
        congruence.
Qed.

(** The first loop: either every tuple passes, or the exception of a
    rejected tuple comes out; the table is the same in both cases. *)
Lemma checks_cases batch t :
  (for_each batch check_one t = (Return tt, t) /\ Forall (passes t) batch)
  \/ (exists a e, In a batch /\ rejected_with t a e
                  /\ for_each batch check_one t = (Raise e, t)).
Proof.
  induction batch as [|a batch IH]; simpl.
  - left. split; [reflexivity | constructor].
  - unfold bind.
    destruct (check_one_cases a t) as [[-> Hp] | (e & -> & Hr & _)].
    + destruct IH as [[-> Hall] | (b & e & Hin & Hr & ->)].
      * left. split; [reflexivity | constructor; assumption].
      * right. exists b, e.
        split; [right; exact Hin | split; [exact Hr | reflexivity]].
    + right. exists a, e.
      split; [left; reflexivity | split; [exact Hr | reflexivity]].
Qed.

(** The second loop appends one row per tuple, in order. *)
Lemma inserts_eq batch t :
  for_each batch insert_one t
  = (Return tt,
     Table (rows t ++ stored (seq t) batch) (seq t + Z.of_nat (List.length batch))).
Proof.
  revert t. induction batch as [|a batch IH]; intros t.
  - simpl. unfold ret. rewrite app_nil_r, Z.add_0_r. destruct t; reflexivity.
  - cbn [for_each stored]. unfold bind at 1. unfold insert_one at 1, insert.
    rewrite IH. cbn [rows seq]. rewrite <- app_assoc. cbn [app List.length].
    do 2 f_equal. lia.
Qed.

Lemma create_accounts_accepts batch t :
  Forall (passes t) batch ->
  create_accounts batch t
  = (Return tt,
     Table (rows t ++ stored (seq t) batch) (seq t + Z.of_nat (List.length batch))).
Proof.
  intros Hall. rewrite create_accounts_eq. unfold bind.
  destruct (checks_cases batch t) as [[-> _] | (a & e & Hin & Hr & _)].
  - apply inserts_eq.
  - exfalso. rewrite Forall_forall in Hall. destruct (Hall a Hin) as [Hfree Hwin].
    destruct Hr as [[Hne _] | [[Hna _] | [Hnone _]]].
    + contradiction.
    + destruct Hna as (s & e' & Hs & He & Hle).
      destruct Hwin as (s' & e'' & Hs' & He' & Hlt).
      rewrite Hs in Hs'. rewrite He in He'.
      injection Hs' as <-. injection He' as <-. lia.
    + destruct Hwin as (s' & e'' & Hs' & He' & _).
      destruct Hnone; congruence.
Qed.

Lemma create_accounts_success batch t t' :
  create_accounts batch t = (Return tt, t') ->
  Forall (passes t) batch
  /\ t' = Table (rows t ++ stored (seq t) batch)
                (seq t + Z.of_nat (List.length batch)).
Proof.
  intros H.
  assert (Hall : Forall (passes t) batch).
  { rewrite create_accounts_eq in H. unfold bind in H.
    destruct (checks_cases batch t) as [[_ Hall] | (a & e & _ & _ & E)];
      [exact Hall|].
    rewrite E in H. discriminate. }
  split; [exact Hall|].
  rewrite (create_accounts_accepts _ _ Hall) in H. congruence.
Qed.

Lemma stored_length id batch : List.length (stored id batch) = List.length batch.
Proof.
  revert id. induction batch as [|a batch IH]; intros id; simpl; auto.
Qed.

Lemma in_stored id batch r :
  In r (stored id batch) ->
  exists a, In a batch /\ account.username r = acc0 a
            /\ account.password r = get_hex_sha (acc1 a)
            /\ account.role r = acc2 a /\ account.start_time r = acc3 a
            /\ account.end_time r = acc4 a.
Proof.
  revert id. induction batch as [|a batch IH]; intros id; simpl; [tauto|].
  intros [<- | H].
  - exists a. simpl. auto 10.
  - destruct (IH _ H) as (b & Hin & Hrest). exists b. auto.
Qed.

Lemma stored_in id batch a :
  In a batch ->
  exists r, In r (stored id batch) /\ account.username r = acc0 a
            /\ account.password r = get_hex_sha (acc1 a)
            /\ account.role r = acc2 a /\ account.start_time r = acc3 a
            /\ account.end_time r = acc4 a.
Proof.
  revert id. induction batch as [|b batch IH]; intros id; simpl; [tauto|].
  intros [-> | H].
  - eexists. split; [left; reflexivity|]. simpl. auto 10.
  - destruct (IH (id + 1)%Z H) as (r & Hin & Hrest). exists r. auto.
Qed.

(** C6.  A batch holding a tuple whose username is already in the table, or
    whose window has its end not after its start, is refused: an exception
    is raised and the table is left as it was, so that no tuple of the batch
    is stored.  The exception is the one of a rejected tuple of the batch:
    DuplicateValueError for a username in use, TimeSetError for a window
    ending not after its start, or the ValueError of a timestamp that does
    not parse. *)
Theorem create_accounts_all_or_nothing batch t :
  (exists a, In a batch /\ (rows_of (acc0 a) t <> [] \/ window_not_after a)) ->
  exists e, create_accounts batch t = (Raise e, t)
            /\ exists b, In b batch /\ rejected_with t b e.
Proof.
  intros (a & Hin & Hbad).
  rewrite create_accounts_eq. unfold bind.
  destruct (checks_cases batch t) as [[_ Hall] | (b & e & Hinb & Hr & ->)].
  - exfalso. rewrite Forall_forall in Hall.
    destruct (Hall a Hin) as [Hfree (s & e & Hs & He & Hlt)].
    destruct Hbad as [Hne | (s' & e' & Hs' & He' & Hle)]; [contradiction|].
    rewrite Hs in Hs'. rewrite He in He'.
    injection Hs' as <-. injection He' as <-. lia.
  - exists e. split; [reflexivity|]. exists b. auto.
Qed.

Lemma stored_app id batch1 batch2 :
  stored id (batch1 ++ batch2)
  = stored id batch1 ++ stored (id + Z.of_nat (List.length batch1)) batch2.
Proof.
  revert id. induction batch1 as [|a batch1 IH]; intros id.
  - simpl. rewrite Z.add_0_r. reflexivity.
  - cbn [app stored List.length]. rewrite IH. do 3 f_equal. lia.
Qed.

Lemma rows_of_app username l1 l2 s1 s2 :
  rows_of username (Table (l1 ++ l2) s1)
  = rows_of username (Table l1 s2) ++ rows_of username (Table l2 s2).
Proof. unfold rows_of. simpl. apply filter_app. Qed.

(** C2.  A batch in which a later tuple repeats the username of an earlier
    one is not refused on that account: when every tuple has a username that
    is free in the table and a valid window, the call returns normally, one
    row per tuple is stored, and the table then holds at least two rows
    with the repeated username. *)
Theorem create_accounts_accepts_duplicates t pre a mid b post :
  acc0 b = acc0 a ->
  Forall (passes t) (pre ++ a :: mid ++ b :: post) ->
  exists t',
    create_accounts (pre ++ a :: mid ++ b :: post) t = (Return tt, t')
    /\ List.length (rows t')
       = List.length (rows t) + List.length (pre ++ a :: mid ++ b :: post)
    /\ 2 <= List.length (rows_of (acc0 a) t').
Proof.
  intros Hdup Hall. eexists. split; [apply create_accounts_accepts, Hall|].
  split.
  - cbn [rows]. rewrite length_app, stored_length. reflexivity.
  - rewrite (rows_of_app _ _ _ _ 0%Z).
    rewrite stored_app. cbn [stored].
    rewrite (rows_of_app _ (stored _ pre) _ _ 0%Z).
    rewrite stored_app. cbn [stored].
    unfold rows_of. cbn [rows filter account.username].
    rewrite String.eqb_refl, filter_app. cbn [filter account.username].
    rewrite Hdup, String.eqb_refl.
    rewrite !length_app. cbn [List.length]. rewrite !length_app.
    cbn [List.length]. lia.
Qed.

Lemma find_app_none {A} (p : A -> bool) (l1 l2 : list A) :
  find p l1 = None -> find p (l1 ++ l2) = find p l2.
Proof.
  induction l1 as [|x l1 IH]; simpl; [reflexivity|].
  destruct (p x); [discriminate | exact IH].
Qed.

Lemma find_exists {A} (p : A -> bool) (l : list A) x :
  In x l -> p x = true -> exists y, find p l = Some y.
Proof.
  intros Hin Hp. destruct (find p l) as [y|] eqn:F; [eauto|].
  apply (find_none _ _ F) in Hin. congruence.
Qed.

Lemma find_all_false {A} (p : A -> bool) (l : list A) :
  (forall x, In x l -> p x = false) -> find p l = None.
Proof.
  intros H. destruct (find p l) as [y|] eqn:F; [|reflexivity].
  apply find_some in F. destruct F as [Hin Hp]. rewrite (H _ Hin) in Hp.
  discriminate.
Qed.

Lemma rows_of_nil_no_row username t r :
  rows_of username t = [] -> In r (rows t) ->
  (account.username r =? username) = false.
Proof.
  intros H Hin. apply known_iff_rows_of in H.
  destruct (account.username r =? username) eqn:E; [|reflexivity].
  rewrite <- H. symmetry. apply existsb_exists. eauto.
Qed.

(** C8.  Two tuples of one batch with the same username and secrets of
    different digests: the batch is stored, and afterwards [verify_account]
    for the first tuple's username accepts the second tuple's secret, a
    secret other than the first tuple's, returning the second tuple's row
    instead of raising PasswordError. *)
Theorem create_accounts_duplicate_breaks_roundtrip t a b :
  acc0 b = acc0 a ->
  passes t a -> passes t b ->
  get_hex_sha (acc1 b) <> get_hex_sha (acc1 a) ->
  exists t' r,
    create_accounts [a; b] t = (Return tt, t')
    /\ fst (verify_account (acc0 a) (acc1 b) t') = Return r
    /\ account.role r = acc2 b /\ account.start_time r = acc3 b
    /\ account.end_time r = acc4 b.
Proof.
  intros Hdup Ha Hb Hneq.
  eexists. eexists. split.
  - apply create_accounts_accepts.
    apply Forall_cons; [exact Ha | apply Forall_cons; [exact Hb | apply Forall_nil]].
  - rewrite verify_account_eq. cbn [fst rows stored].
    rewrite find_app_none.
    + cbn [find account.username account.password].
      rewrite String.eqb_refl. cbn [andb].
      apply String.eqb_neq in Hneq. rewrite String.eqb_sym in Hneq.
      rewrite Hneq, Hdup, !String.eqb_refl. cbn [andb].
      repeat split.
    + apply find_all_false. intros r Hin.
      rewrite (rows_of_nil_no_row _ _ _ (proj1 Ha) Hin). reflexivity.
Qed.

(** X23.  The round trip holds for a tuple whose username no other tuple of
    the batch carries: its own secret is accepted and gives back its username,
    role and window, and a secret of another digest raises PasswordError. *)
Lemma create_accounts_roundtrip batch t t' a :
  create_accounts batch t = (Return tt, t') ->
  In a batch ->
  (forall b, In b batch -> acc0 b = acc0 a -> b = a) ->
  (exists r, fst (verify_account (acc0 a) (acc1 a) t') = Return r
             /\ account.username r = acc0 a /\ account.role r = acc2 a
             /\ account.start_time r = acc3 a /\ account.end_time r = acc4 a)
  /\ (forall other, get_hex_sha other <> get_hex_sha (acc1 a) ->
        fst (verify_account (acc0 a) other t')
        = Raise (Exn PasswordError (Some (acc0 a ++ "'s password wrong")%string))).
Proof.
  intros Hok Hin Huniq.
  apply create_accounts_success in Hok. destruct Hok as [Hall ->].
  rewrite Forall_forall in Hall. destruct (Hall a Hin) as [Hfree _].
  assert (Hrows : forall r,
            In r (rows t ++ stored (seq t) batch) ->
            (account.username r =? acc0 a) = true ->
            account.password r = get_hex_sha (acc1 a)
            /\ account.role r = acc2 a /\ account.start_time r = acc3 a
            /\ account.end_time r = acc4 a).
  { intros r Hr Hu. apply in_app_or in Hr. destruct Hr as [Hr | Hr].
    - rewrite (rows_of_nil_no_row _ _ _ Hfree Hr) in Hu. discriminate.
    - apply in_stored in Hr. destruct Hr as (b & Hb & Eu & Ep & Er & Es & Ee).
      apply String.eqb_eq in Hu.
      assert (b = a) by (apply Huniq; [exact Hb | congruence]).
      subst b. auto. }
  destruct (stored_in (seq t) batch a Hin) as (r0 & Hr0 & Eu0 & Ep0 & _).
  split.
  - rewrite verify_account_eq. cbn [fst rows].
    destruct (find_exists
                (fun r => (account.username r =? acc0 a)
                          && (account.password r =? get_hex_sha (acc1 a)))
                (rows t ++ stored (seq t) batch) r0) as [r F].
    + apply in_or_app. right. exact Hr0.
    + rewrite Eu0, Ep0, !String.eqb_refl. reflexivity.
    + rewrite F. exists r. split; [reflexivity|].
      apply find_some in F. destruct F as [Hr Hb].
      apply andb_true_iff in Hb. destruct Hb as [Hu _].
      destruct (Hrows r Hr Hu) as (_ & Er & Es & Ee).
      apply String.eqb_eq in Hu. auto.
  - intros other Hneq. rewrite verify_account_eq. cbn [fst rows].
    rewrite find_all_false.
    + destruct (find_exists (fun r => account.username r =? acc0 a)
                  (rows t ++ stored (seq t) batch) r0) as [r F].
      * apply in_or_app. right. exact Hr0.
      * rewrite Eu0. apply String.eqb_refl.
      * rewrite F. reflexivity.
    + intros r Hr.
      destruct (account.username r =? acc0 a) eqn:Hu; [|reflexivity].
      destruct (Hrows r Hr Hu) as (Ep & _). rewrite Ep. cbn [andb].
      apply String.eqb_neq. congruence.
Qed.

(** *** Update of the allowed window *)

(** C3.  What [update_allow_time] stores for a known username and a valid
    window: no end_time of the table changes, and start_time of the rows of
    that username becomes the text of a truth value, "1" where the row's
    end_time already equals the new one and the new start_time counts as
    true for SQLite, "0" elsewhere.  The other rows stay as they were. *)
Theorem update_allow_time_stores username start_time end_time t :
  rows_of username t <> [] ->
  window_valid start_time end_time ->
  exists t',
    update_allow_time username start_time end_time t = (Return tt, t')
    /\ map account.end_time (rows t') = map account.end_time (rows t)
    /\ (forall r, In r (rows t') -> account.username r = username ->
          account.start_time r
          = text_of_bool (sql_truth start_time
                          && (account.end_time r =? end_time)))
    /\ (forall r, In r (rows t') -> account.username r <> username ->
          In r (rows t)).
Proof.
  intros Hknown Hwin.
  apply verify_time_true in Hwin. destruct Hwin as [w Hv].
  unfold update_allow_time, bind at 1. rewrite check_username_exits_eq.
  destruct (existsb _ (rows t)) eqn:Hex;
    [| apply known_iff_rows_of in Hex; contradiction].
  unfold bind, lift, update. rewrite Hv. cbn [fst].
  eexists. split; [reflexivity|]. cbn [rows].
  split; [|split].
  - rewrite map_map. apply map_ext. intros r.
    destruct (account.username r =? username); reflexivity.
  - intros r Hin Hu. apply in_map_iff in Hin. destruct Hin as (r0 & E & _).
    destruct (account.username r0 =? username) eqn:Hu0.
    + subst r. reflexivity.
    + subst r0. rewrite Hu, String.eqb_refl in Hu0. discriminate.
  - intros r Hin Hu. apply in_map_iff in Hin. destruct Hin as (r0 & E & Hin0).
    destruct (account.username r0 =? username) eqn:Hu0.
    + subst r. simpl in Hu. apply String.eqb_eq in Hu0. contradiction.
    + subst r0. exact Hin0.
Qed.

End Properties.

(* ================================================================= *)
(** ** The operations run on the reference runtime *)

Example verify_password_ex1 : verify_password "Passw0rd!" = true.
Proof. reflexivity. Qed.

Example verify_password_ex2 : verify_password "password" = false.
Proof. reflexivity. Qed.

Example verify_password_ex3 : verify_password "PASSWORD1!" = false.
Proof. reflexivity. Qed.

Example verify_password_ex4 : verify_password "Pw1!" = false.
Proof. reflexivity. Qed.

(** A secret with no digit 0-9: "Password!" followed by U+0663, the
    Arabic-Indic digit three. *)
Example verify_password_ex5 : verify_password (codepoints "Password!" ++ [0x663%N]) = true.
Proof. reflexivity. Qed.

Example verify_password_ex6 : verify_password (codepoints "Passw0rd!" ++ [10%N]) = true.
Proof. reflexivity. Qed.

Example sha256_of_password :
  get_hex_sha "password"
  = "5e884898da28047151d0e56f8dc6292773603d0d6aabbdd62a11ef721d1542d8".
Proof. vm_compute. reflexivity. Qed.

Example school_store_rows :
  map (fun r => (account.user_id r, account.username r, account.role r,
                 account.start_time r, account.end_time r))
      (rows school_store)
  = [(1%Z, "admin", "admin", "2023-01-01 00:00:00", "2030-01-01 00:00:00");
     (2%Z, "test_std", "student", "2023-04-17 00:00:00", "2023-05-17 00:00:00")].
Proof. vm_compute. reflexivity. Qed.

(** [update_allow_time("admin", "2024-01-01 00:00:00", "2031-01-01 00:00:00")]
    on the fresh store: start_time becomes "0", end_time stays. *)
Example update_allow_time_admin :
  map (fun r => (account.start_time r, account.end_time r))
      (rows (snd (update_allow_time "admin" "2024-01-01 00:00:00"
                    "2031-01-01 00:00:00" fresh_store)))
  = [("0", "2030-01-01 00:00:00")].
Proof. vm_compute. reflexivity. Qed.

Ltac window_by_computation :=
  eexists; eexists;
  split; [vm_compute; reflexivity | split; [vm_compute; reflexivity | reflexivity]].

Ltac passes_by_computation :=
  split; [vm_compute; reflexivity | window_by_computation].

(** C7, the claim as worded fails on ["Passw0rd!?"]: ten characters with a
    digit, a lowercase and an uppercase letter and the symbol [!], refused
    because of the [?]. *)
Lemma verify_password_not_as_specified :
  ~ (verify_password "Passw0rd!?" = true
     <-> strong_as_specified "Passw0rd!?" = true).
Proof.
  intros [_ H]. specialize (H eq_refl). vm_compute in H. discriminate H.
Qed.

Lemma verify_password_iff_witness : verify_password "Passw0rd!" = true.
Proof.
  apply (proj2 (verify_password_iff "Passw0rd!")).
  exists (codepoints "Passw0rd!").
  split; [left; reflexivity|].
  split; [vm_compute; lia|].
  repeat split; reflexivity.
Defined.

Lemma change_password_on_refusal_witness :
  (fst (verify_account "nobody" "password" school_store)
   = Raise (Exn AccountError (Some "nobody not found"))
   /\ change_password "nobody" "password" "N3w_secret!" school_store
      = (Return false, school_store))
  /\
  (fst (verify_account "test_std" "wrong" school_store)
   = Raise (Exn PasswordError (Some "test_std's password wrong"))
   /\ change_password "test_std" "wrong" "N3w_secret!" school_store
      = (Raise (Exn PasswordError (Some "test_std's password wrong")),
         school_store)).
Proof.
  split; split.
  - vm_compute. reflexivity.
  - apply (proj1 (change_password_on_refusal "nobody" "password" "N3w_secret!"
                    school_store (Some "nobody not found"))).
    vm_compute. reflexivity.
  - vm_compute. reflexivity.
  - apply (proj2 (change_password_on_refusal "test_std" "wrong" "N3w_secret!"
                    school_store (Some "test_std's password wrong"))).
    vm_compute. reflexivity.
Defined.

Lemma create_accounts_accepts_duplicates_witness :
  acc0 test_std_again = acc0 test_std
  /\ Forall (passes fresh_store) [test_std; test_std_again]
  /\ exists t',
       create_accounts [test_std; test_std_again] fresh_store = (Return tt, t')
       /\ List.length (rows t') = List.length (rows fresh_store) + 2
       /\ 2 <= List.length (rows_of "test_std" t').
Proof.
  assert (Hall : Forall (passes fresh_store) [test_std; test_std_again]).
  { apply Forall_cons; [passes_by_computation|].
    apply Forall_cons; [passes_by_computation | apply Forall_nil]. }
  split; [reflexivity|]. split; [exact Hall|].
  exact (create_accounts_accepts_duplicates fresh_store [] test_std []
           test_std_again [] eq_refl Hall).
Defined.

Lemma update_allow_time_stores_witness :
  rows_of "admin" fresh_store <> []
  /\ window_valid "2024-01-01 00:00:00" "2031-01-01 00:00:00"
  /\ exists t',
       update_allow_time "admin" "2024-01-01 00:00:00" "2031-01-01 00:00:00"
         fresh_store = (Return tt, t')
       /\ map account.end_time (rows t') = ["2030-01-01 00:00:00"]
       /\ (forall r, In r (rows t') -> account.username r = "admin" ->
             account.start_time r
             = text_of_bool (sql_truth "2024-01-01 00:00:00"
                             && (account.end_time r =? "2031-01-01 00:00:00")))
       /\ (forall r, In r (rows t') -> account.username r <> "admin" ->
             In r (rows fresh_store)).
Proof.
  assert (Hknown : rows_of "admin" fresh_store <> []) by (vm_compute; discriminate).
  assert (Hwin : window_valid "2024-01-01 00:00:00" "2031-01-01 00:00:00")
    by window_by_computation.
  split; [exact Hknown|]. split; [exact Hwin|].
  exact (update_allow_time_stores "admin" "2024-01-01 00:00:00"
           "2031-01-01 00:00:00" fresh_store Hknown Hwin).
Defined.

Lemma username_get_base_info_columns_witness :
  username_get_base_info "test_std" school_store
  = (Return (VInt 2, VText "test_std", VText "student",
             VText "2023-04-17 00:00:00"), school_store)
  /\ username_get_base_info "nobody" school_store
     = (Raise (Exn TypeError None), school_store).
Proof.
  split.
  - apply (proj1 (username_get_base_info_columns "test_std" school_store)
             (account.Row 2 "test_std" (get_hex_sha "password") "student"
                "2023-04-17 00:00:00" "2023-05-17 00:00:00")).
    vm_compute. reflexivity.
  - apply (proj2 (username_get_base_info_columns "nobody" school_store)).
    vm_compute. reflexivity.
Defined.

Lemma verify_account_three_way_witness :
  (exists r, fst (verify_account "test_std" "password" school_store) = Return r
             /\ In r (rows school_store) /\ account.username r = "test_std"
             /\ account.password r = get_hex_sha "password")
  /\ fst (verify_account "test_std" "wrong" school_store)
     = Raise (Exn PasswordError (Some "test_std's password wrong"))
  /\ fst (verify_account "nobody" "password" school_store)
     = Raise (Exn AccountError (Some "nobody not found")).
Proof.
  split; [|split].
  - apply (proj1 (verify_account_three_way "test_std" "password" school_store)).
    eexists. split; [right; left; reflexivity|].
    split; vm_compute; reflexivity.
  - apply (proj1 (proj2 (verify_account_three_way "test_std" "wrong" school_store))).
    + eexists. split; [right; left; reflexivity | vm_compute; reflexivity].
    + intros r [<- | [<- | []]] Hu; vm_compute in Hu |- *; discriminate.
  - apply (proj2 (proj2 (verify_account_three_way "nobody" "password" school_store))).
    intros r [<- | [<- | []]]; vm_compute; discriminate.
Defined.

Lemma create_accounts_all_or_nothing_witness :
  (exists a, In a [test_std; test_backwards]
             /\ (rows_of (acc0 a) fresh_store <> [] \/ window_not_after a))
  /\ exists e,
       create_accounts [test_std; test_backwards] fresh_store
       = (Raise e, fresh_store)
       /\ exists b, In b [test_std; test_backwards]
                    /\ rejected_with fresh_store b e.
Proof.
  assert (Hbad : exists a, In a [test_std; test_backwards]
                   /\ (rows_of (acc0 a) fresh_store <> [] \/ window_not_after a)).
  { exists test_backwards. split; [right; left; reflexivity|]. right.
    eexists; eexists.
    split; [vm_compute; reflexivity|].
    split; [vm_compute; reflexivity|].
    vm_compute. discriminate. }
  split; [exact Hbad|].
  exact (create_accounts_all_or_nothing [test_std; test_backwards] fresh_store Hbad).
Defined.

Lemma create_accounts_duplicate_breaks_roundtrip_witness :
  acc0 test_std_again = acc0 test_std
  /\ passes fresh_store test_std /\ passes fresh_store test_std_again
  /\ get_hex_sha (acc1 test_std_again) <> get_hex_sha (acc1 test_std)
  /\ exists t' r,
       create_accounts [test_std; test_std_again] fresh_store = (Return tt, t')
       /\ fst (verify_account "test_std" "hunter2" t') = Return r
       /\ account.role r = "teacher"
       /\ account.start_time r = "2023-06-01 00:00:00"
       /\ account.end_time r = "2023-07-01 00:00:00".
Proof.
  assert (Ha : passes fresh_store test_std) by passes_by_computation.
  assert (Hb : passes fresh_store test_std_again) by passes_by_computation.
  assert (Hneq : get_hex_sha (acc1 test_std_again) <> get_hex_sha (acc1 test_std))
    by (vm_compute; discriminate).
  split; [reflexivity|]. split; [exact Ha|]. split; [exact Hb|].
  split; [exact Hneq|].
  exact (create_accounts_duplicate_breaks_roundtrip fresh_store test_std
           test_std_again eq_refl Ha Hb Hneq).
Defined.

Lemma init_twice_one_admin_witness :
  (admin_count fresh_store <> 0
   /\ snd (_init_admin_if_not_exits "An0ther_key!xyz" fresh_store) = fresh_store)
  /\ (admin_count (Table [] 0) = 0
      /\ admin_count (snd (_init_admin_if_not_exits drawn_key (Table [] 0))) = 1).
Proof.
  assert (H1 : admin_count fresh_store <> 0) by (vm_compute; discriminate).
  split; split.
  - exact H1.
  - exact (proj1 (proj2 init_twice_one_admin) "An0ther_key!xyz" fresh_store H1).
  - reflexivity.
  - exact (proj2 (proj2 init_twice_one_admin) drawn_key (Table [] 0) eq_refl).
Defined.

(* ================================================================= *)
(** ** Key generation *)

Section KeyGeneration.
Context {u : UnicodeData}.

Lemma chars_length s : List.length (chars s) = String.length s.
Proof. induction s as [|c s IH]; simpl; [reflexivity | now rewrite IH]. Qed.

Lemma string_of_chars_length l : String.length (string_of_list_ascii l) = List.length l.
Proof. induction l as [|c l IH]; simpl; [reflexivity | now rewrite IH]. Qed.

Lemma set_item_length i y l : List.length (set_item i y l) = List.length l.
Proof.
  revert i. induction l as [|x l IH]; intros [|i]; simpl; auto.
Qed.

Lemma firstn_snoc_item s l :
  s < List.length l -> firstn (S s) l = firstn s l ++ [item_at s l].
Proof.
  revert s. induction l as [|x l IH]; intros s H; simpl in H; [lia|].
  destruct s as [|s]; [reflexivity|].
  change (item_at (S s) (x :: l)) with (item_at s l).
  rewrite (firstn_cons (S s)), (firstn_cons s), (IH s) by lia. reflexivity.
Qed.

(** One turn of the loop: the picked item together with what is left of
    the pool's live part is the live part before the turn, rearranged. *)
Lemma pick_perm j s pool :
  j <= s -> s < List.length pool ->
  Permutation (item_at j pool :: firstn s (set_item j (item_at s pool) pool))
              (firstn (S s) pool).
Proof.
  revert s pool. induction j as [|j IH]; intros s pool Hj Hs.
  - destruct pool as [|x l]; simpl in Hs; [lia|].
    destruct s as [|s]; [reflexivity|].
    change (item_at 0 (x :: l)) with x.
    change (item_at (S s) (x :: l)) with (item_at s l).
    cbn [set_item]. rewrite (firstn_cons s), (firstn_cons (S s)).
    apply perm_skip.
    rewrite (firstn_snoc_item s l) by lia.
    apply Permutation_cons_append.
  - destruct pool as [|x l]; simpl in Hs; [lia|].
    destruct s as [|s]; [lia|].
    change (item_at (S j) (x :: l)) with (item_at j l).
    change (item_at (S s) (x :: l)) with (item_at s l).
    cbn [set_item]. rewrite (firstn_cons s), (firstn_cons (S s)).
    eapply perm_trans; [apply perm_swap|].
    apply perm_skip. apply IH; lia.
Qed.

Lemma sample_loop_perm g steps n i pool :
  n - i = steps -> steps <= List.length pool ->
  Permutation (sample_loop g n i steps pool) (firstn steps pool).
Proof.
  revert i pool. induction steps as [|s IH]; intros i pool Hn Hlen.
  - reflexivity.
  - cbn [sample_loop].
    assert (Hj : randbelow g i (n - i) <= s).
    { unfold randbelow. rewrite Hn.
      pose proof (Nat.mod_upper_bound (g i) (S s)). lia. }
    replace (n - i - 1) with s by lia.
    eapply perm_trans; [|apply (pick_perm (randbelow g i (n - i)) s pool); lia].
    apply perm_skip. apply IH; [lia|].
    rewrite set_item_length. lia.
Qed.

(** [random.sample(population, len(population))] rearranges the population. *)
Lemma sample_all_perm g population :
  Permutation (sample g population (List.length population)) population.
Proof.
  unfold sample.
  eapply perm_trans; [apply sample_loop_perm; lia|].
  rewrite firstn_all. reflexivity.
Qed.

Lemma chars_generate_key sr shuffler length :
  Permutation (chars (generate_key sr shuffler length)) (generate_mix sr length).
Proof.
  unfold generate_key, chars. rewrite list_ascii_of_string_of_list_ascii.
  apply sample_all_perm.
Qed.

Lemma choice_in g call seq :
  seq <> "" -> In (choice g call seq) (chars seq).
Proof.
  intros Hne. unfold choice, item_at. apply nth_In.
  rewrite chars_length. unfold randbelow. apply Nat.mod_upper_bound.
  destruct seq; [congruence | simpl; lia].
Qed.

Lemma choice_has g call seq (p : ascii -> bool) :
  seq <> "" -> forallb p (chars seq) = true -> p (choice g call seq) = true.
Proof.
  intros Hne Hall. rewrite forallb_forall in Hall.
  apply Hall, choice_in, Hne.
Qed.

Lemma generate_mix_length sr length :
  List.length (generate_mix sr length) = Z.to_nat (Z.max length 4).
Proof.
  unfold generate_mix. cbn [app List.length].
  rewrite length_map, length_seq. lia.
Qed.

Lemma generate_mix_allowed sr length :
  forallb is_allowed (generate_mix sr length) = true.
Proof.
  unfold generate_mix. cbn [app forallb].
  rewrite !(choice_has _ _ _ is_allowed) by (discriminate || reflexivity).
  cbn [andb]. apply forallb_forall. intros c Hc.
  apply in_map_iff in Hc. destruct Hc as (call & <- & _).
  apply choice_has; [discriminate | reflexivity].
Qed.

Lemma existsb_perm (p : ascii -> bool) l l' :
  Permutation l l' -> existsb p l = true -> existsb p l' = true.
Proof.
  intros HP H. apply existsb_exists in H. destruct H as (c & Hin & Hc).
  apply existsb_exists. exists c. split; [|exact Hc].
  eapply Permutation_in; eassumption.
Qed.

Lemma forallb_perm (p : ascii -> bool) l l' :
  Permutation l l' -> forallb p l = true -> forallb p l' = true.
Proof.
  intros HP H. rewrite forallb_forall in *. intros c Hin.
  apply H. eapply Permutation_in; [apply Permutation_sym|]; eassumption.
Qed.

(** One-byte characters read as code points. *)
Lemma code_eqb a b : N.eqb (code a) (code b) = Ascii.eqb a b.
Proof.
  destruct (Ascii.eqb_spec a b) as [-> | Hne]; [apply N.eqb_refl|].
  apply N.eqb_neq. intros E. apply Hne.
  rewrite <- (ascii_N_embedding a), <- (ascii_N_embedding b).
  unfold code in E. rewrite E. reflexivity.
Qed.

Lemma decimal_code a : Re.is_decimal (code a) = Re.is_digit a.
Proof.
  unfold Re.is_decimal.
  pose proof (N_ascii_bounded a) as Hb. fold (code a) in Hb.
  apply N.ltb_lt in Hb. rewrite Hb. reflexivity.
Qed.

Lemma symbol_code a : Cp.is_symbol (code a) = is_symbol a.
Proof.
  unfold Cp.is_symbol, is_symbol, codepoints.
  induction (chars symbols) as [|b l IH]; [reflexivity|].
  cbn [map existsb]. rewrite code_eqb, IH. reflexivity.
Qed.

Lemma allowed_code a : Cp.is_allowed (code a) = is_allowed a.
Proof.
  unfold Cp.is_allowed, is_allowed. rewrite decimal_code, symbol_code.
  reflexivity.
Qed.

Lemma existsb_codes (p : N -> bool) (q : ascii -> bool) l :
  (forall a, p (code a) = q a) -> existsb p (map code l) = existsb q l.
Proof.
  intros H. induction l as [|a l IH]; [reflexivity|].
  cbn [map existsb]. rewrite H, IH. reflexivity.
Qed.

Lemma forallb_codes (p : N -> bool) (q : ascii -> bool) l :
  (forall a, p (code a) = q a) -> forallb p (map code l) = forallb q l.
Proof.
  intros H. induction l as [|a l IH]; [reflexivity|].
  cbn [map forallb]. rewrite H, IH. reflexivity.
Qed.

(** The password pattern seen from the secret's characters: both directions
    of its reading as a body of allowed characters and an optional final
    newline. *)
Lemma pattern_accepts_body (body tail : text) :
  tail = [] \/ tail = [code newline] ->
  8 <= List.length body ->
  forallb Cp.is_allowed body = true ->
  existsb Re.is_decimal body = true -> existsb Cp.is_lower body = true ->
  existsb Cp.is_upper body = true -> existsb Cp.is_symbol body = true ->
  verify_password (body ++ tail) = true.
Proof.
  intros Htail Hlen Hall H1 H2 H3 H4.
  unfold verify_password, Re.matches.
  assert (Hl : existsb (Re.atom_ok (Re.Class [Re.Range "a" "z"])) body = true)
    by (rewrite (existsb_class1 Cp.is_lower); [exact H2 | reflexivity]).
  assert (Hu : existsb (Re.atom_ok (Re.Class [Re.Range "A" "Z"])) body = true)
    by (rewrite (existsb_class1 Cp.is_upper); [exact H3 | reflexivity]).
  assert (Hs : existsb (Re.atom_ok (Re.Class [Re.Lits symbols])) body = true)
    by (rewrite (existsb_class1 Cp.is_symbol); [exact H4 | reflexivity]).
  change (existsb (Re.atom_ok Re.Esc_d) body = true) in H1.
  apply (look_body _ _ _ Hall Htail) in H1; [|reflexivity].
  apply (look_body _ _ _ Hall Htail) in Hl; [|reflexivity].
  apply (look_body _ _ _ Hall Htail) in Hu; [|reflexivity].
  apply (look_body _ _ _ Hall Htail) in Hs; [|reflexivity].
  assert (Hb : Re.run (Re.AtLeast 8
                 (Re.Class [Re.Range "a" "z"; Re.Range "A" "Z"; Re.Digit;
                            Re.Lits symbols]) ;; Re.Eol)%re
                 0 (body ++ tail) (fun _ _ => true) = true)
    by (apply body_iff; exists body, tail; auto).
  unfold pattern. cbn [Re.run] in *. cbn [Nat.eqb andb].
  rewrite H1, Hl, Hu, Hs, Hb. reflexivity.
Qed.

Lemma pattern_accepted_inv (secret : text) :
  verify_password secret = true ->
  exists body tail,
    secret = body ++ tail /\ (tail = [] \/ tail = [code newline])
    /\ 8 <= List.length body /\ forallb Cp.is_allowed body = true
    /\ existsb Re.is_decimal body = true /\ existsb Cp.is_lower body = true
    /\ existsb Cp.is_upper body = true /\ existsb Cp.is_symbol body = true.
Proof.
  unfold verify_password, Re.matches. set (cs := secret).
  destruct (Re.run pattern 0 cs (fun _ _ => true)) eqn:Hrun; [intros _|discriminate].
  assert (Hsplit :
    Re.run (Re.AtLeast 0 Re.Dot ;; Re.One Re.Esc_d)%re 0 cs (fun _ _ => true)
      && (Re.run (Re.AtLeast 0 Re.Dot ;; Re.One (Re.Class [Re.Range "a" "z"]))%re
                 0 cs (fun _ _ => true)
      && (Re.run (Re.AtLeast 0 Re.Dot ;; Re.One (Re.Class [Re.Range "A" "Z"]))%re
                 0 cs (fun _ _ => true)
      && (Re.run (Re.AtLeast 0 Re.Dot ;; Re.One (Re.Class [Re.Lits symbols]))%re
                 0 cs (fun _ _ => true)
      && Re.run (Re.AtLeast 8
                   (Re.Class [Re.Range "a" "z"; Re.Range "A" "Z"; Re.Digit;
                              Re.Lits symbols]) ;; Re.Eol)%re
                0 cs (fun _ _ => true)))) = true) by exact Hrun.
  clear Hrun.
  apply andb_true_iff in Hsplit. destruct Hsplit as [H1 Hsplit].
  apply andb_true_iff in Hsplit. destruct Hsplit as [H2 Hsplit].
  apply andb_true_iff in Hsplit. destruct Hsplit as [H3 Hsplit].
  apply andb_true_iff in Hsplit. destruct Hsplit as [H4 H5].
  apply body_iff in H5. destruct H5 as (body & tail & E & Htail & Hlen & Hall).
  rewrite E in H1, H2, H3, H4.
  apply (look_body _ _ _ Hall Htail) in H1; [|reflexivity].
  apply (look_body _ _ _ Hall Htail) in H2; [|reflexivity].
  apply (look_body _ _ _ Hall Htail) in H3; [|reflexivity].
  apply (look_body _ _ _ Hall Htail) in H4; [|reflexivity].
  rewrite (existsb_class1 Cp.is_lower) in H2 by reflexivity.
  rewrite (existsb_class1 Cp.is_upper) in H3 by reflexivity.
  rewrite (existsb_class1 Cp.is_symbol) in H4 by reflexivity.
  exists body, tail. auto 10.
Qed.

(** X1.  Whatever the generators yield, [generate_key(length)] has
    [length] characters when [length] is at least 4, and 4 characters when
    it is smaller (also for zero and negative lengths). *)
Theorem generate_key_length sr shuffler length :
  String.length (generate_key sr shuffler length) = Z.to_nat (Z.max length 4).
Proof.
  rewrite <- chars_length.
  rewrite (Permutation_length (chars_generate_key sr shuffler length)).
  apply generate_mix_length.
Qed.

(** X2.  Whatever the generators yield, the key holds a lowercase letter,
    an uppercase letter, a digit and one of the symbols, and nothing but
    ASCII letters, digits and those symbols. *)
Theorem generate_key_classes sr shuffler length :
  let key := chars (generate_key sr shuffler length) in
  existsb is_lower key = true /\ existsb is_upper key = true
  /\ existsb Re.is_digit key = true /\ existsb is_symbol key = true
  /\ forallb is_allowed key = true.
Proof.
  cbv zeta.
  pose proof (Permutation_sym (chars_generate_key sr shuffler length)) as HP.
  repeat split;
    try (apply (existsb_perm _ _ _ HP); unfold generate_mix; cbn [app existsb]).
  - rewrite (choice_has _ _ _ is_lower) by (discriminate || reflexivity).
    reflexivity.
  - rewrite (choice_has _ _ ascii_uppercase is_upper) by (discriminate || reflexivity).
    apply orb_true_r.
  - rewrite (choice_has _ _ digits Re.is_digit) by (discriminate || reflexivity).
    rewrite !orb_true_r. reflexivity.
  - rewrite (choice_has _ _ symbols is_symbol) by (discriminate || reflexivity).
    rewrite !orb_true_r. reflexivity.
  - apply (forallb_perm _ _ _ HP), generate_mix_allowed.
Qed.

(** X3.  The shuffle at the end of [generate_key] neither loses nor repeats
    a character: the key is a rearrangement of the four guaranteed
    characters followed by the [length - 4] free ones. *)
Theorem generate_key_shuffles sr shuffler length :
  Permutation (chars (generate_key sr shuffler length)) (generate_mix sr length).
Proof.
  unfold generate_key, chars. rewrite list_ascii_of_string_of_list_ascii.
  unfold sample.
  eapply perm_trans; [apply sample_loop_perm; lia|].
  rewrite firstn_all. reflexivity.
Qed.

(** X4.  A generated key passes [verify_password] exactly when the length
    asked for is at least 8, whatever the generators yield; so the key of
    length 15 made for the first administrator always passes. *)
Theorem generate_key_strong_iff sr shuffler length :
  verify_password (generate_key sr shuffler length) = true <-> (8 <= length)%Z.
Proof.
  pose proof (chars_generate_key sr shuffler length) as HP.
  pose proof (Permutation_length HP) as Hlen.
  rewrite generate_mix_length in Hlen.
  split.
  - intros H. apply pattern_accepted_inv in H.
    destruct H as (body & tail & E & _ & Hbody & _).
    apply (f_equal (@List.length N)) in E.
    unfold codepoints in E. rewrite length_map, length_app in E. lia.
  - intros H.
    rewrite <- (app_nil_r (codepoints (generate_key sr shuffler length))).
    apply Permutation_sym in HP. unfold codepoints.
    apply pattern_accepts_body.
    + left. reflexivity.
    + rewrite length_map. lia.
    + rewrite (forallb_codes _ _ _ allowed_code).
      apply (forallb_perm _ _ _ HP), generate_mix_allowed.
    + rewrite (existsb_codes _ _ _ decimal_code).
      apply (existsb_perm _ _ _ HP). unfold generate_mix. cbn [app existsb].
      rewrite (choice_has _ _ digits Re.is_digit) by (discriminate || reflexivity).
      rewrite !orb_true_r. reflexivity.
    + rewrite (existsb_codes _ is_lower) by reflexivity.
      apply (existsb_perm _ _ _ HP). unfold generate_mix. cbn [app existsb].
      rewrite (choice_has _ _ _ is_lower) by (discriminate || reflexivity).
      reflexivity.
    + rewrite (existsb_codes _ is_upper) by reflexivity.
      apply (existsb_perm _ _ _ HP). unfold generate_mix. cbn [app existsb].
      rewrite (choice_has _ _ ascii_uppercase is_upper) by (discriminate || reflexivity).
      apply orb_true_r.
    + rewrite (existsb_codes _ _ _ symbol_code).
      apply (existsb_perm _ _ _ HP). unfold generate_mix. cbn [app existsb].
      rewrite (choice_has _ _ symbols is_symbol) by (discriminate || reflexivity).
      rewrite !orb_true_r. reflexivity.
Qed.

(** X5.  Every secret [verify_password] accepts, whatever code points it
    is made of, has at least 8 characters and holds a decimal digit (of any
    script, as the pattern's digit class takes them), a lowercase letter
    a-z, an uppercase letter A-Z and one of the symbols. *)
Theorem verify_password_implies_specified (secret : text) :
  verify_password secret = true -> strong_as_specified secret = true.
Proof.
  intros H. apply pattern_accepted_inv in H.
  destruct H as (body & tail & -> & _ & Hlen & _ & H1 & H2 & H3 & H4).
  unfold strong_as_specified. rewrite length_app.
  rewrite !existsb_app, H1, H2, H3, H4. cbn [orb andb].
  rewrite !andb_true_r. apply Nat.leb_le. lia.
Qed.

End KeyGeneration.

(* ================================================================= *)
(** ** Further properties of the store operations *)

Section StoreLaws.
Context {rt : Runtime}.

(** *** The time check *)


(** *** Bulk creation *)

Lemma checks_skip_passing pre l t :
  Forall (passes t) pre ->
  for_each (pre ++ l) check_one t = for_each l check_one t.
Proof.
  induction 1 as [|a pre Ha _ IH]; [reflexivity|].
  cbn [app for_each]. unfold bind at 1.
  destruct (check_one_cases a t) as [[-> _] | (e & _ & _ & Hno)];
    [exact IH | contradiction].
Qed.

Lemma stored_fields id batch :
  map (fun r => (account.username r, account.password r, account.role r,
                 account.start_time r, account.end_time r)) (stored id batch)
  = map (fun a => (acc0 a, get_hex_sha (acc1 a), acc2 a, acc3 a, acc4 a)) batch.
Proof.
  revert id. induction batch as [|a batch IH]; intros id; simpl;
    [reflexivity | now rewrite IH].
Qed.

Lemma stored_ids id batch :
  map account.user_id (stored id batch)
  = map (fun k => (id + 1 + Z.of_nat k)%Z) (List.seq 0 (List.length batch)).
Proof.
  revert id. induction batch as [|a batch IH]; intros id; [reflexivity|].
  cbn [stored List.length List.seq map account.user_id].
  rewrite Z.add_0_r. f_equal.
  rewrite IH, <- seq_shift, map_map. apply map_ext. intros k. lia.
Qed.

Lemma stored_usernames id batch :
  map account.username (stored id batch) = map acc0 batch.
Proof.
  revert id. induction batch as [|a batch IH]; intros id; simpl;
    [reflexivity | now rewrite IH].
Qed.

(** The table a call of [create_accounts] leaves: the one it found, or that
    one with the rows of the batch appended. *)
Lemma create_accounts_table batch t :
  (exists e, create_accounts batch t = (Raise e, t))
  \/ (Forall (passes t) batch
      /\ create_accounts batch t
         = (Return tt,
            Table (rows t ++ stored (seq t) batch)
                  (seq t + Z.of_nat (List.length batch)))).
Proof.
  destruct (checks_cases batch t) as [[_ Hall] | (a & e & _ & _ & E)].
  - right. split; [exact Hall | apply create_accounts_accepts, Hall].
  - left. exists e. rewrite create_accounts_eq. unfold bind. rewrite E.
    reflexivity.
Qed.

(** X7.  [create_accounts] returns normally exactly when every tuple of the
    batch has a username that no row of the table carries and a window whose
    end is after its start.  Only the table as it was before the call
    counts: the other tuples of the batch play no part. *)
Theorem create_accounts_succeeds_iff batch t :
  (exists t', create_accounts batch t = (Return tt, t'))
  <-> Forall (passes t) batch.
Proof.
  split.
  - intros [t' H]. apply (create_accounts_success _ _ _ H).
  - intros H. eexists. apply create_accounts_accepts, H.
Qed.

(** X8.  When [create_accounts] returns normally, the rows the table had
    are still there, unchanged and in place, followed by one new row per
    tuple in the order of the batch; a new row holds the tuple's username,
    the digest of its secret (not the secret), its role and its window, and
    the new user_ids are the consecutive numbers after the counter. *)
Theorem create_accounts_appends batch t t' :
  create_accounts batch t = (Return tt, t') ->
  exists news,
    rows t' = rows t ++ news
    /\ map (fun r => (account.username r, account.password r, account.role r,
                      account.start_time r, account.end_time r)) news
       = map (fun a => (acc0 a, get_hex_sha (acc1 a), acc2 a, acc3 a, acc4 a))
             batch
    /\ map account.user_id news
       = map (fun k => (seq t + 1 + Z.of_nat k)%Z)
             (List.seq 0 (List.length batch))
    /\ seq t' = (seq t + Z.of_nat (List.length batch))%Z.
Proof.
  intros H. apply create_accounts_success in H. destruct H as [_ ->].
  exists (stored (seq t) batch). cbn [rows seq].
  split; [reflexivity|]. split; [apply stored_fields|].
  split; [apply stored_ids | reflexivity].
Qed.

(** X9.  The exception of [create_accounts] is that of the first tuple, in
    batch order, that fails its check, whatever follows it; and for that
    tuple a username in use is reported before its window is looked at.
    The table is unchanged. *)
Theorem create_accounts_first_rejected pre a post t :
  Forall (passes t) pre ->
  (rows_of (acc0 a) t <> [] ->
   create_accounts (pre ++ a :: post) t
   = (Raise (Exn DuplicateValueError (Some (acc0 a ++ " already in used.")%string)),
      t))
  /\ (rows_of (acc0 a) t = [] -> window_not_after a ->
      create_accounts (pre ++ a :: post) t
      = (Raise (Exn TimeSetError
                  (Some (acc0 a ++ " time set error, " ++ acc4 a
                         ++ " early than " ++ acc3 a)%string)), t))
  /\ (rows_of (acc0 a) t = [] ->
      strptime (acc3 a) = None \/ strptime (acc4 a) = None ->
      create_accounts (pre ++ a :: post) t = (Raise (Exn ValueError None), t)).
Proof.
  intros Hpre.
  assert (E : create_accounts (pre ++ a :: post) t
              = match check_one a t with
                | (Return _, t1) =>
                    (for_each post check_one
                     >> for_each (pre ++ a :: post) insert_one) t1
                | (Raise e, t1) => (Raise e, t1)
                end).
  { rewrite create_accounts_eq. unfold bind at 1.
    rewrite (checks_skip_passing _ _ _ Hpre). cbn [for_each]. unfold bind at 1.
    destruct (check_one a t) as [[[]|e] t1]; [|reflexivity].
    unfold bind. destruct (for_each post check_one t1) as [[[]|e] t2]; reflexivity. }
  rewrite E, check_one_eq. clear E.
  split; [|split].
  - intros Hused.
    destruct (existsb _ (rows t)) eqn:Hex; [reflexivity|].
    apply known_iff_rows_of in Hex. contradiction.
  - intros Hfree Hwin. apply known_iff_rows_of in Hfree. rewrite Hfree.
    apply verify_time_false in Hwin. destruct Hwin as [w ->]. reflexivity.
  - intros Hfree Hnone. apply known_iff_rows_of in Hfree. rewrite Hfree.
    unfold verify_time.
    destruct (strptime (acc3 a)); [|reflexivity].
    destruct Hnone as [Hn | Hn]; [discriminate|]. rewrite Hn. reflexivity.
Qed.

Lemma existsb_username_in username l :
  existsb (fun r => account.username r =? username) l = true
  <-> In username (map account.username l).
Proof.
  rewrite existsb_exists, in_map_iff. split.
  - intros (r & Hin & Hu). apply String.eqb_eq in Hu. eauto.
  - intros (r & Hu & Hin). exists r. split; [exact Hin|].
    apply String.eqb_eq, Hu.
Qed.

Lemma check_username_exits_true username t :
  fst (check_username_exits username t) = Return true
  <-> In username (usernames t).
Proof.
  rewrite check_username_exits_eq. cbn [fst]. unfold usernames.
  rewrite <- existsb_username_in.
  destruct (existsb _ (rows t)); split; congruence.
Qed.

(** X10.  After a call of [create_accounts] that returned normally,
    [check_username_exits] finds a username exactly when it found it before
    or the username is one of the batch. *)
Theorem create_accounts_then_exists batch t t' username :
  create_accounts batch t = (Return tt, t') ->
  (fst (check_username_exits username t') = Return true
   <-> fst (check_username_exits username t) = Return true
       \/ In username (map acc0 batch)).
Proof.
  intros H. apply create_accounts_success in H. destruct H as [_ ->].
  rewrite !check_username_exits_true. unfold usernames. cbn [rows].
  rewrite map_app, stored_usernames, in_app_iff. reflexivity.
Qed.

(** X11.  Usernames stay unique when the batch does not repeat one: if no
    two rows of the table share a username and no two tuples of the batch
    do, then after a call that returned normally no two rows share a
    username. *)
Theorem create_accounts_keeps_usernames_unique batch t t' :
  NoDup (usernames t) -> NoDup (map acc0 batch) ->
  create_accounts batch t = (Return tt, t') ->
  NoDup (usernames t').
Proof.
  intros Ht Hb H. apply create_accounts_success in H. destruct H as [Hall ->].
  unfold usernames in *. cbn [rows]. rewrite map_app, stored_usernames.
  apply NoDup_app; [exact Ht | exact Hb |].
  intros u Hu Hin. apply in_map_iff in Hin. destruct Hin as (a & <- & Ha).
  rewrite Forall_forall in Hall. destruct (Hall a Ha) as [Hfree _].
  apply known_iff_rows_of in Hfree.
  apply existsb_username_in in Hu. congruence.
Qed.

(** *** Change of password *)

Lemma change_password_eq username old_pwd new_pwd t :
  change_password username old_pwd new_pwd t
  = match fst (verify_account username old_pwd t) with
    | Return _ =>
        (Return true,
         Table (map (fun r => if account.username r =? username
                              then with_password (get_hex_sha new_pwd) r else r)
                    (rows t))
               (seq t))
    | Raise e => if isinstance e AccountError then (Return false, t)
                 else (Raise e, t)
    end.
Proof.
  pose proof (f_equal snd (verify_account_eq username old_pwd t)) as Hframe.
  unfold change_password, try_except.
  destruct (verify_account username old_pwd t) as [[r|e] t1];
    simpl in Hframe; subst t1; reflexivity.
Qed.

(** X12.  When the current secret is accepted, [change_password] returns
    [True] and writes the digest of the new secret into every row of that
    username; rows of other usernames stay as they are, and no user_id,
    username, role or window changes anywhere. *)
Theorem change_password_accepts username old_pwd new_pwd t r :
  fst (verify_account username old_pwd t) = Return r ->
  exists t',
    change_password username old_pwd new_pwd t = (Return true, t')
    /\ (forall r', In r' (rows t') -> account.username r' = username ->
          account.password r' = get_hex_sha new_pwd)
    /\ (forall r', account.username r' <> username ->
          (In r' (rows t') <-> In r' (rows t)))
    /\ map (fun r => (account.user_id r, account.username r, account.role r,
                      account.start_time r, account.end_time r)) (rows t')
       = map (fun r => (account.user_id r, account.username r, account.role r,
                        account.start_time r, account.end_time r)) (rows t)
    /\ seq t' = seq t.
Proof.
  intros Hok. rewrite change_password_eq, Hok.
  eexists. split; [reflexivity|]. cbn [rows seq].
  split; [|split; [|split; [|reflexivity]]].
  - intros r' Hin Hu. apply in_map_iff in Hin. destruct Hin as (r0 & E & _).
    destruct (account.username r0 =? username) eqn:Hu0.
    + subst r'. reflexivity.
    + subst r0. rewrite Hu, String.eqb_refl in Hu0. discriminate.
  - intros r' Hu. rewrite in_map_iff. split.
    + intros (r0 & E & Hin).
      destruct (account.username r0 =? username) eqn:Hu0.
      * subst r'. apply String.eqb_eq in Hu0. contradiction.
      * subst r0. exact Hin.
    + intros Hin. exists r'. split; [|exact Hin].
      apply String.eqb_neq in Hu. rewrite Hu. reflexivity.
  - rewrite map_map. apply map_ext. intros r0.
    destruct (account.username r0 =? username); reflexivity.
Qed.

(** X13.  After a change of password that was accepted, [verify_account]
    accepts the new secret for that username, and raises PasswordError for
    the old one when its digest differs from the new one's. *)
Theorem change_password_roundtrip username old_pwd new_pwd t r :
  fst (verify_account username old_pwd t) = Return r ->
  let t' := snd (change_password username old_pwd new_pwd t) in
  (exists r', fst (verify_account username new_pwd t') = Return r'
              /\ account.username r' = username
              /\ account.password r' = get_hex_sha new_pwd)
  /\ (get_hex_sha old_pwd <> get_hex_sha new_pwd ->
      fst (verify_account username old_pwd t')
      = Raise (Exn PasswordError (Some (username ++ "'s password wrong")%string))).
Proof.
  intros Hok. cbv zeta. rewrite change_password_eq, Hok. cbn [snd].
  rewrite verify_account_eq in Hok. cbn [fst] in Hok.
  assert (Hin : In r (rows t) /\ account.username r = username).
  { destruct (find (fun r0 => (account.username r0 =? username) && _) (rows t))
      as [r1|] eqn:F.
    - injection Hok as ->. apply find_some in F. destruct F as [Hin Hb].
      apply andb_true_iff in Hb. destruct Hb as [Hu _].
      apply String.eqb_eq in Hu. auto.
    - destruct (find (fun r0 => account.username r0 =? username) (rows t));
        discriminate. }
  destruct Hin as [Hin Hu]. clear Hok.
  set (upd := fun r0 : row => if account.username r0 =? username
                then with_password (get_hex_sha new_pwd) r0 else r0).
  assert (Hin' : In (with_password (get_hex_sha new_pwd) r) (map upd (rows t))).
  { apply in_map_iff. exists r. split; [|exact Hin].
    unfold upd. rewrite Hu, String.eqb_refl. reflexivity. }
  assert (Hall : forall r', In r' (map upd (rows t)) ->
                   (account.username r' =? username) = true ->
                   account.password r' = get_hex_sha new_pwd).
  { intros r' H Hu'. apply in_map_iff in H. destruct H as (r0 & E & _).
    unfold upd in E. destruct (account.username r0 =? username) eqn:Hu0.
    - subst r'. reflexivity.
    - subst r0. congruence. }
  split.
  - rewrite verify_account_eq. cbn [fst rows].
    destruct (find_exists
                (fun r0 => (account.username r0 =? username)
                           && (account.password r0 =? get_hex_sha new_pwd))
                (map upd (rows t)) _ Hin') as [r' F].
    + cbn [with_password account.username account.password].
      rewrite Hu, !String.eqb_refl. reflexivity.
    + rewrite F. exists r'. split; [reflexivity|].
      apply find_some in F. destruct F as [_ Hb].
      apply andb_true_iff in Hb. destruct Hb as [Hu' Hp'].
      apply String.eqb_eq in Hu', Hp'. auto.
  - intros Hneq. rewrite verify_account_eq. cbn [fst rows].
    rewrite find_all_false.
    + destruct (find_exists (fun r0 => account.username r0 =? username)
                  (map upd (rows t)) _ Hin') as [r' F].
      * cbn [with_password account.username]. rewrite Hu. apply String.eqb_refl.
      * rewrite F. reflexivity.
    + intros r' H.
      destruct (account.username r' =? username) eqn:Hu'; [|reflexivity].
      rewrite (Hall r' H Hu'). cbn [andb]. apply String.eqb_neq. congruence.
Qed.

(** *** Update of the allowed window *)

Lemma update_allow_time_eq username start_time end_time t :
  update_allow_time username start_time end_time t
  = if existsb (fun r => account.username r =? username) (rows t)
    then match verify_time start_time end_time with
         | Raise e => (Raise e, t)
         | Return (true, _) =>
             (Return tt,
              Table (map (fun r =>
                       if account.username r =? username
                       then account.Row (account.user_id r) (account.username r)
                              (account.password r) (account.role r)
                              (text_of_bool
                                 (sql_truth start_time
                                  && (account.end_time r =? end_time)))
                              (account.end_time r)
                       else r) (rows t))
                    (seq t))
         | Return (false, _) =>
             (Raise (Exn TimeSetError
                       (Some ("Error, " ++ end_time ++ " early than "
                              ++ start_time)%string)), t)
         end
    else (Raise (Exn AccountError (Some (username ++ " does not exits")%string)), t).
Proof.
  unfold update_allow_time, bind at 1. rewrite check_username_exits_eq.
  destruct (existsb _ (rows t)); [|reflexivity].
  unfold bind, lift, update, raise.
  destruct (verify_time start_time end_time) as [[[|] w]|e]; reflexivity.
Qed.

(** X14.  The refusals of [update_allow_time], none of which touches the
    table.  An unknown username raises AccountError whatever the window is,
    even one that does not parse; for a known username, a window whose end
    is not after its start raises TimeSetError, and a text that is not a
    timestamp raises the ValueError of [strptime]. *)
Theorem update_allow_time_refusals username start_time end_time t :
  (rows_of username t = [] ->
   update_allow_time username start_time end_time t
   = (Raise (Exn AccountError (Some (username ++ " does not exits")%string)), t))
  /\ (rows_of username t <> [] ->
      (exists s e, strptime start_time = Some s /\ strptime end_time = Some e
                   /\ (e <= s)%Z) ->
      update_allow_time username start_time end_time t
      = (Raise (Exn TimeSetError
                  (Some ("Error, " ++ end_time ++ " early than "
                         ++ start_time)%string)), t))
  /\ (rows_of username t <> [] ->
      strptime start_time = None \/ strptime end_time = None ->
      update_allow_time username start_time end_time t
      = (Raise (Exn ValueError None), t)).
Proof.
  rewrite update_allow_time_eq.
  destruct (existsb _ (rows t)) eqn:Hex.
  - assert (Hne : rows_of username t <> []).
    { intros H. apply known_iff_rows_of in H. congruence. }
    split; [contradiction|]. unfold verify_time. split.
    + intros _ (s & e & -> & -> & Hle). apply Z.ltb_ge in Hle. rewrite Hle.
      reflexivity.
    + intros _ Hnone. destruct (strptime start_time); [|reflexivity].
      destruct Hnone as [Hn | Hn]; [discriminate | rewrite Hn; reflexivity].
  - apply known_iff_rows_of in Hex.
    split; [reflexivity | split; intros Hne; contradiction].
Qed.

(** X15.  Calling [update_allow_time] a second time with the same arguments
    gives the same outcome and leaves the table as the first call left it. *)
Theorem update_allow_time_idempotent username start_time end_time t :
  let first := update_allow_time username start_time end_time t in
  update_allow_time username start_time end_time (snd first) = first.
Proof.
  cbv zeta. rewrite !update_allow_time_eq.
  destruct (existsb (fun r => account.username r =? username) (rows t)) eqn:Hex;
    [|cbn [snd]; rewrite Hex; reflexivity].
  destruct (verify_time start_time end_time) as [[[|] w]|e] eqn:Hv;
    cbn [snd]; try (rewrite Hex; reflexivity).
  cbn [rows seq].
  replace (existsb (fun r => account.username r =? username) (map _ (rows t)))
    with true.
  - rewrite map_map. do 2 f_equal. apply map_ext. intros r.
    destruct (account.username r =? username) eqn:Hu; [|rewrite Hu; reflexivity].
    cbn [account.username account.end_time account.user_id account.password
         account.role]. rewrite Hu. reflexivity.
  - symmetry. rewrite existsb_exists in *. destruct Hex as (r & Hin & Hu).
    eexists. split; [apply in_map, Hin|].
    rewrite Hu. exact Hu.
Qed.

(** *** What no operation does *)

Lemma create_accounts_identities batch t :
  exists extra,
    map identity (rows (snd (create_accounts batch t)))
    = map identity (rows t) ++ extra.
Proof.
  destruct (create_accounts_table batch t) as [[e ->] | [_ ->]]; cbn [snd rows].
  - exists []. rewrite app_nil_r. reflexivity.
  - eexists. apply map_app.
Qed.

Lemma change_password_identities username old_pwd new_pwd t :
  map identity (rows (snd (change_password username old_pwd new_pwd t)))
  = map identity (rows t).
Proof.
  rewrite change_password_eq.
  destruct (fst (verify_account username old_pwd t)) as [r|e].
  - cbn [snd rows]. rewrite map_map. apply map_ext. intros r0.
    destruct (account.username r0 =? username); reflexivity.
  - destruct (isinstance e AccountError); reflexivity.
Qed.

Lemma update_allow_time_identities username start_time end_time t :
  map identity (rows (snd (update_allow_time username start_time end_time t)))
  = map identity (rows t).
Proof.
  rewrite update_allow_time_eq.
  destruct (existsb _ (rows t)); [|reflexivity].
  destruct (verify_time start_time end_time) as [[[|] w]|e]; try reflexivity.
  cbn [snd rows]. rewrite map_map. apply map_ext. intros r0.
  destruct (account.username r0 =? username); reflexivity.
Qed.

Lemma init_admin_table key t :
  snd (_init_admin_if_not_exits key t) = t
  \/ (admin_count t = 0
      /\ snd (_init_admin_if_not_exits key t)
         = Table (rows t ++ [account.Row (seq t + 1) "admin" (get_hex_sha key)
                               "admin" "2023-01-01 00:00:00"
                               "2030-01-01 00:00:00"])
                 (seq t + 1)).
Proof.
  destruct (Nat.eq_dec (admin_count t) 0) as [H | H].
  - right. split; [exact H|]. rewrite (init_admin_when_absent _ _ H). reflexivity.
  - left. rewrite (init_admin_when_present _ _ H). reflexivity.
Qed.

Lemma init_admin_identities key t :
  exists extra,
    map identity (rows (snd (_init_admin_if_not_exits key t)))
    = map identity (rows t) ++ extra.
Proof.
  destruct (init_admin_table key t) as [-> | [_ ->]].
  - exists []. rewrite app_nil_r. reflexivity.
  - eexists. cbn [rows]. apply map_app.
Qed.

(** X16.  No operation removes an account or changes who it is: after
    [create_accounts], [change_password], [update_allow_time] or the admin
    bootstrap, whether they return or raise, the user_id, username and role
    of every row are what they were, row for row; the first and the last
    may only append rows. *)
Theorem accounts_never_removed t :
  (forall batch, exists extra,
      map identity (rows (snd (create_accounts batch t)))
      = map identity (rows t) ++ extra)
  /\ (forall username old_pwd new_pwd,
        map identity (rows (snd (change_password username old_pwd new_pwd t)))
        = map identity (rows t))
  /\ (forall username start_time end_time,
        map identity
          (rows (snd (update_allow_time username start_time end_time t)))
        = map identity (rows t))
  /\ (forall key, exists extra,
        map identity (rows (snd (_init_admin_if_not_exits key t)))
        = map identity (rows t) ++ extra).
Proof.
  split; [intros; apply create_accounts_identities|].
  split; [intros; apply change_password_identities|].
  split; [intros; apply update_allow_time_identities|].
  intros; apply init_admin_identities.
Qed.

Lemma admin_count_identities t :
  admin_count t
  = List.length (filter (fun i => snd i =? "admin") (map identity (rows t))).
Proof.
  unfold admin_count. induction (rows t) as [|r l IH]; [reflexivity|].
  cbn [map filter identity snd]. destruct (account.role r =? "admin"); simpl; lia.
Qed.

Lemma admin_count_le t t' extra :
  map identity (rows t') = map identity (rows t) ++ extra ->
  admin_count t <= admin_count t'.
Proof.
  intros H. rewrite !admin_count_identities, H, filter_app, length_app. lia.
Qed.

(** X17.  The number of rows of role admin never goes down: not through
    [create_accounts], [change_password], [update_allow_time] or the admin
    bootstrap, whatever their arguments and outcome.  A store that has an
    administrator keeps one. *)
Theorem admins_never_lost t :
  (forall batch, admin_count t <= admin_count (snd (create_accounts batch t)))
  /\ (forall username old_pwd new_pwd,
        admin_count t
        <= admin_count (snd (change_password username old_pwd new_pwd t)))
  /\ (forall username start_time end_time,
        admin_count t
        <= admin_count (snd (update_allow_time username start_time end_time t)))
  /\ (forall key,
        admin_count t <= admin_count (snd (_init_admin_if_not_exits key t))).
Proof.
  split; [|split; [|split]].
  - intros batch. destruct (create_accounts_identities batch t) as [extra H].
    exact (admin_count_le _ _ _ H).
  - intros u o n. apply (admin_count_le _ _ []).
    rewrite app_nil_r. apply change_password_identities.
  - intros u s e. apply (admin_count_le _ _ []).
    rewrite app_nil_r. apply update_allow_time_identities.
  - intros key. destruct (init_admin_identities key t) as [extra H].
    exact (admin_count_le _ _ _ H).
Qed.

(** X18.  The two lookups besides [verify_account], namely
    [check_username_exits] and [username_get_base_info], leave the table as
    they found it, also when the latter raises. *)
Theorem lookups_keep_table username t :
  snd (check_username_exits username t) = t
  /\ snd (username_get_base_info username t) = t.
Proof.
  split.
  - rewrite check_username_exits_eq. reflexivity.
  - unfold username_get_base_info, bind, select_first, lift, ret.
    cbn [fst snd].
    destruct (find _ (rows t)) as [r|]; reflexivity.
Qed.

(** *** Construction *)

(** X19.  Whatever the database file holds, a constructed store has at
    least one row of role admin, and the rows the file held are still there,
    unchanged and in place, followed by at most one new row. *)
Theorem init_has_admin_keeps_rows db key :
  1 <= admin_count (__init__ db key)
  /\ exists extra,
       rows (__init__ db key) = rows (_create_table_if_not_exits db) ++ extra
       /\ List.length extra <= 1.
Proof.
  unfold __init__. set (t := _create_table_if_not_exits db).
  destruct (init_admin_table key t) as [E | [H0 E]].
  - assert (Hne : admin_count t <> 0).
    { intros H0. pose proof (admin_count_after_insert key t H0) as H1.
      rewrite E in H1. lia. }
    rewrite E. split; [lia|]. exists []. rewrite app_nil_r. auto.
  - split; [rewrite (admin_count_after_insert key t H0); lia|].
    rewrite E. eexists. split; [reflexivity | simpl; lia].
Qed.

(** X20.  On a store made from a new database file, the key that was drawn
    opens the account admin: [verify_account] returns the row of user_id 1,
    of role admin, and a secret of another digest raises PasswordError. *)
Theorem bootstrap_admin_roundtrip key :
  verify_account "admin" key (__init__ None key)
  = (Return (account.Row 1 "admin" (get_hex_sha key) "admin"
               "2023-01-01 00:00:00" "2030-01-01 00:00:00"),
     __init__ None key)
  /\ (forall other, get_hex_sha other <> get_hex_sha key ->
        fst (verify_account "admin" other (__init__ None key))
        = Raise (Exn PasswordError (Some "admin's password wrong"))).
Proof.
  assert (E : __init__ None key
              = Table [account.Row 1 "admin" (get_hex_sha key) "admin"
                         "2023-01-01 00:00:00" "2030-01-01 00:00:00"] 1)
    by reflexivity.
  rewrite E. split.
  - rewrite verify_account_eq. cbn [rows find account.username account.password].
    rewrite !String.eqb_refl. reflexivity.
  - intros other Hneq. rewrite verify_account_eq.
    cbn [fst rows find account.username account.password].
    apply String.eqb_neq in Hneq. rewrite String.eqb_sym in Hneq.
    rewrite Hneq, String.eqb_refl. reflexivity.
Qed.

(** *** User ids *)

Lemma ids_fresh_same_ids t t' :
  map account.user_id (rows t') = map account.user_id (rows t) ->
  seq t' = seq t -> ids_fresh t -> ids_fresh t'.
Proof.
  unfold ids_fresh. intros Hid Hseq [Hle Hnd]. rewrite Hid, Hseq.
  split; [|exact Hnd].
  rewrite Forall_forall in *. intros r Hin.
  assert (Hi : In (account.user_id r) (map account.user_id (rows t)))
    by (rewrite <- Hid; apply in_map, Hin).
  apply in_map_iff in Hi. destruct Hi as (r0 & <- & Hin0). apply Hle, Hin0.
Qed.

Lemma stored_ids_range id batch r :
  In r (stored id batch) ->
  (id < account.user_id r <= id + Z.of_nat (List.length batch))%Z.
Proof.
  revert id. induction batch as [|a batch IH]; intros id; [simpl; tauto|].
  cbn [stored List.length]. intros [<- | H].
  - cbn [account.user_id]. lia.
  - apply IH in H. lia.
Qed.

Lemma stored_ids_nodup id batch : NoDup (map account.user_id (stored id batch)).
Proof.
  revert id. induction batch as [|a batch IH]; intros id; [constructor|].
  cbn [stored map account.user_id]. constructor; [|apply IH].
  intros Hin. apply in_map_iff in Hin. destruct Hin as (r & E & Hr).
  apply stored_ids_range in Hr. lia.
Qed.

Lemma ids_fresh_append t batch :
  ids_fresh t ->
  ids_fresh (Table (rows t ++ stored (seq t) batch)
                   (seq t + Z.of_nat (List.length batch))).
Proof.
  unfold ids_fresh. cbn [rows seq]. intros [Hle Hnd].
  rewrite Forall_forall in Hle. split.
  - apply Forall_forall. intros r Hin. apply in_app_or in Hin.
    destruct Hin as [Hin | Hin].
    + apply Hle in Hin. lia.
    + apply stored_ids_range in Hin. lia.
  - rewrite map_app. apply NoDup_app; [exact Hnd | apply stored_ids_nodup|].
    intros i Hi Hi'. apply in_map_iff in Hi. destruct Hi as (r & <- & Hr).
    apply in_map_iff in Hi'. destruct Hi' as (r' & E & Hr').
    apply Hle in Hr. apply stored_ids_range in Hr'. lia.
Qed.

Lemma identities_ids t t' :
  map identity (rows t') = map identity (rows t) ->
  map account.user_id (rows t') = map account.user_id (rows t).
Proof.
  intros H. apply (f_equal (map (fun i => fst (fst i)))) in H.
  rewrite !map_map in H. exact H.
Qed.

(** X21.  User ids are never shared nor reused: if no user_id of the table
    is above the AUTOINCREMENT counter and no two rows have the same one,
    this still holds after [create_accounts], [change_password],
    [update_allow_time] and the admin bootstrap, whatever their arguments
    and outcome. *)
Theorem ids_stay_fresh t :
  ids_fresh t ->
  (forall batch, ids_fresh (snd (create_accounts batch t)))
  /\ (forall username old_pwd new_pwd,
        ids_fresh (snd (change_password username old_pwd new_pwd t)))
  /\ (forall username start_time end_time,
        ids_fresh (snd (update_allow_time username start_time end_time t)))
  /\ (forall key, ids_fresh (snd (_init_admin_if_not_exits key t))).
Proof.
  intros Hf. split; [|split; [|split]].
  - intros batch.
    destruct (create_accounts_table batch t) as [[e ->] | [_ ->]]; cbn [snd];
      [exact Hf | apply ids_fresh_append, Hf].
  - intros u o n. apply (ids_fresh_same_ids t); [| |exact Hf].
    + apply identities_ids, change_password_identities.
    + rewrite change_password_eq.
      destruct (fst (verify_account u o t)) as [r|e]; [reflexivity|].
      destruct (isinstance e AccountError); reflexivity.
  - intros u s e. apply (ids_fresh_same_ids t); [| |exact Hf].
    + apply identities_ids, update_allow_time_identities.
    + rewrite update_allow_time_eq.
      destruct (existsb _ (rows t)); [|reflexivity].
      destruct (verify_time s e) as [[[|] w]|x]; reflexivity.
  - intros key. destruct (init_admin_table key t) as [-> | [_ ->]]; [exact Hf|].
    pose proof (ids_fresh_append t [("admin", key, "admin",
                   "2023-01-01 00:00:00", "2030-01-01 00:00:00")] Hf) as H.
    cbn [stored List.length acc0 acc1 acc2 acc3 acc4] in H.
    replace (seq t + Z.of_nat 1)%Z with (seq t + 1)%Z in H by lia.
    exact H.
Qed.

(** *** Unique usernames *)

Lemma nodup_map_injective {A B} (f : A -> B) (l : list A) x y :
  NoDup (map f l) -> In x l -> In y l -> f x = f y -> x = y.
Proof.
  induction l as [|a l IH]; simpl; [tauto|].
  intros Hnd Hx Hy E. apply NoDup_cons_iff in Hnd. destruct Hnd as [Hnotin Hnd].
  destruct Hx as [-> | Hx], Hy as [-> | Hy]; auto.
  - exfalso. apply Hnotin. rewrite E. apply in_map, Hy.
  - exfalso. apply Hnotin. rewrite <- E. apply in_map, Hx.
Qed.

(** X22.  In a table where no two rows share a username, [verify_account]
    decides on the one row of the username: it returns that very row when
    the row's digest is the digest of the secret, and raises PasswordError
    when it is not. *)
Theorem verify_account_unique username password t r :
  NoDup (usernames t) ->
  In r (rows t) -> account.username r = username ->
  (account.password r = get_hex_sha password ->
   fst (verify_account username password t) = Return r)
  /\ (account.password r <> get_hex_sha password ->
      fst (verify_account username password t)
      = Raise (Exn PasswordError (Some (username ++ "'s password wrong")%string))).
Proof.
  intros Hnd Hin Hu.
  assert (Hsame : forall r', In r' (rows t) ->
                    (account.username r' =? username) = true -> r' = r).
  { intros r' Hin' Hu'. apply String.eqb_eq in Hu'.
    apply (nodup_map_injective account.username (rows t)); auto. congruence. }
  rewrite verify_account_eq. cbn [fst]. split.
  - intros Hp.
    destruct (find_exists
                (fun r0 => (account.username r0 =? username)
                           && (account.password r0 =? get_hex_sha password))
                (rows t) r Hin) as [r' F].
    + rewrite Hu, Hp, !String.eqb_refl. reflexivity.
    + rewrite F. apply find_some in F. destruct F as [Hin' Hb].
      apply andb_true_iff in Hb. destruct Hb as [Hu' _].
      rewrite (Hsame r' Hin' Hu'). reflexivity.
  - intros Hp. rewrite find_all_false.
    + destruct (find_exists (fun r0 => account.username r0 =? username)
                  (rows t) r Hin) as [r' F].
      * rewrite Hu. apply String.eqb_refl.
      * rewrite F. reflexivity.
    + intros r' Hin'.
      destruct (account.username r' =? username) eqn:Hu'; [|reflexivity].
      rewrite (Hsame r' Hin' Hu'). cbn [andb]. apply String.eqb_neq, Hp.
Qed.

End StoreLaws.

(* ================================================================= *)
(** ** The further properties run on the reference runtime *)

Ltac nodup_by_computation :=
  vm_compute; repeat constructor; simpl; intuition discriminate.

Lemma generate_key_strong_iff_witness :
  verify_password
    (generate_key (fun call => call * 37 + 5) (fun call => call * 11 + 3) 15)
  = true.
Proof.
  apply (proj2 (generate_key_strong_iff (fun call => call * 37 + 5)
                  (fun call => call * 11 + 3) 15)).
  lia.
Defined.

Lemma verify_password_implies_specified_witness :
  verify_password "Passw0rd!" = true /\ strong_as_specified "Passw0rd!" = true.
Proof.
  split; [reflexivity|].
  apply (verify_password_implies_specified "Passw0rd!"). reflexivity.
Defined.


Lemma create_accounts_succeeds_iff_witness :
  exists t', create_accounts [test_std] fresh_store = (Return tt, t').
Proof.
  apply (proj2 (create_accounts_succeeds_iff (rt := reference_runtime) [test_std] fresh_store)).
  apply Forall_cons; [passes_by_computation | apply Forall_nil].
Defined.

Lemma create_accounts_appends_witness :
  exists news,
    rows school_store = rows fresh_store ++ news
    /\ map account.user_id news = [2%Z]
    /\ seq school_store = 2%Z.
Proof.
  destruct (create_accounts_appends (rt := reference_runtime) [test_std] fresh_store school_store
              ltac:(vm_compute; reflexivity)) as (news & H1 & _ & H3 & H4).
  exists news. split; [exact H1|]. split; [exact H3 | exact H4].
Defined.

Lemma create_accounts_first_rejected_witness :
  create_accounts [test_std; test_backwards; test_std_again] fresh_store
  = (Raise (Exn TimeSetError
              (Some (acc0 test_backwards ++ " time set error, "
                     ++ acc4 test_backwards ++ " early than "
                     ++ acc3 test_backwards)%string)), fresh_store).
Proof.
  apply (proj1 (proj2 (create_accounts_first_rejected (rt := reference_runtime) [test_std] test_backwards
                         [test_std_again] fresh_store
                         ltac:(apply Forall_cons;
                               [passes_by_computation | apply Forall_nil])))).
  - vm_compute. reflexivity.
  - eexists; eexists.
    split; [vm_compute; reflexivity|].
    split; [vm_compute; reflexivity|].
    vm_compute. discriminate.
Defined.

Lemma create_accounts_then_exists_witness :
  fst (check_username_exits "test_std" school_store) = Return true.
Proof.
  apply (proj2 (create_accounts_then_exists (rt := reference_runtime) [test_std] fresh_store school_store
                  "test_std" ltac:(vm_compute; reflexivity))).
  right. left. reflexivity.
Defined.

Lemma create_accounts_keeps_usernames_unique_witness :
  NoDup (usernames school_store).
Proof.
  apply (create_accounts_keeps_usernames_unique (rt := reference_runtime) [test_std] fresh_store
           school_store).
  - nodup_by_computation.
  - nodup_by_computation.
  - vm_compute. reflexivity.
Defined.

Lemma create_accounts_roundtrip_witness :
  exists r, fst (verify_account "test_std" "password" school_store) = Return r
            /\ account.username r = "test_std" /\ account.role r = "student"
            /\ account.start_time r = "2023-04-17 00:00:00"
            /\ account.end_time r = "2023-05-17 00:00:00".
Proof.
  apply (proj1 (create_accounts_roundtrip (rt := reference_runtime) [test_std] fresh_store school_store
                  test_std ltac:(vm_compute; reflexivity)
                  ltac:(left; reflexivity)
                  ltac:(intros b [<- | []] _; reflexivity))).
Defined.

Lemma change_password_accepts_witness :
  exists t',
    change_password "test_std" "password" "N3w_secret!" school_store
    = (Return true, t')
    /\ seq t' = seq school_store.
Proof.
  destruct (change_password_accepts (rt := reference_runtime) "test_std" "password" "N3w_secret!"
              school_store
              (account.Row 2 "test_std" (get_hex_sha (rt := reference_runtime) "password") "student"
                 "2023-04-17 00:00:00" "2023-05-17 00:00:00")
              ltac:(vm_compute; reflexivity)) as (t' & H1 & _ & _ & _ & H5).
  exists t'. split; [exact H1 | exact H5].
Defined.

Lemma change_password_roundtrip_witness :
  exists r',
    fst (verify_account "test_std" "N3w_secret!"
           (snd (change_password "test_std" "password" "N3w_secret!"
                   school_store))) = Return r'
    /\ account.username r' = "test_std"
    /\ account.password r' = get_hex_sha "N3w_secret!".
Proof.
  apply (proj1 (change_password_roundtrip (rt := reference_runtime) "test_std" "password" "N3w_secret!"
                  school_store
                  (account.Row 2 "test_std" (get_hex_sha (rt := reference_runtime) "password") "student"
                     "2023-04-17 00:00:00" "2023-05-17 00:00:00")
                  ltac:(vm_compute; reflexivity))).
Defined.

Lemma update_allow_time_refusals_witness :
  update_allow_time "nobody" "tomorrow" "2023-04-17 00:00:00" school_store
  = (Raise (Exn AccountError (Some "nobody does not exits")), school_store)
  /\ update_allow_time "test_std" "2023-05-17 00:00:00" "2023-04-17 00:00:00"
       school_store
     = (Raise (Exn TimeSetError
                 (Some "Error, 2023-04-17 00:00:00 early than 2023-05-17 00:00:00")),
        school_store).
Proof.
  split.
  - apply (proj1 (update_allow_time_refusals (rt := reference_runtime) "nobody" "tomorrow"
                    "2023-04-17 00:00:00" school_store)).
    vm_compute. reflexivity.
  - apply (proj1 (proj2 (update_allow_time_refusals (rt := reference_runtime) "test_std"
                           "2023-05-17 00:00:00" "2023-04-17 00:00:00"
                           school_store))).
    + vm_compute. discriminate.
    + eexists; eexists.
      split; [vm_compute; reflexivity|].
      split; [vm_compute; reflexivity|].
      vm_compute. discriminate.
Defined.

Lemma bootstrap_admin_roundtrip_witness :
  fst (verify_account "admin" "wrong" fresh_store)
  = Raise (Exn PasswordError (Some "admin's password wrong")).
Proof.
  apply (proj2 (bootstrap_admin_roundtrip (rt := reference_runtime) drawn_key) "wrong").
  vm_compute. discriminate.
Defined.

Lemma ids_stay_fresh_witness :
  ids_fresh fresh_store /\ ids_fresh school_store.
Proof.
  assert (H : ids_fresh fresh_store).
  { split.
    - apply Forall_cons; [vm_compute; discriminate | apply Forall_nil].
    - nodup_by_computation. }
  split; [exact H|].
  exact (proj1 (ids_stay_fresh (rt := reference_runtime) fresh_store H) [test_std]).
Defined.

Lemma verify_account_unique_witness :
  fst (verify_account "test_std" "password" school_store)
  = Return (account.Row 2 "test_std" (get_hex_sha (rt := reference_runtime) "password") "student"
              "2023-04-17 00:00:00" "2023-05-17 00:00:00").
Proof.
  apply (proj1 (verify_account_unique (rt := reference_runtime) "test_std" "password" school_store
                  (account.Row 2 "test_std" (get_hex_sha (rt := reference_runtime) "password") "student"
                     "2023-04-17 00:00:00" "2023-05-17 00:00:00")
                  ltac:(nodup_by_computation)
                  ltac:(right; left; reflexivity)
                  ltac:(reflexivity))).
  reflexivity.
Defined.
